(** * A shallow embedding of the Lumix reflection core (engine/reflection.h) *)

From Stdlib Require Import List String ZArith Bool Lia.
Import ListNotations.
Open Scope Z_scope.

(** Scalar types of the engine, as carried by the reflection layer.
    Integers are kept as [Z] (u32/i32 in their ranges), floats as their
    32-bit pattern; a [const char*] is a pointer, i.e. an address. *)
Definition i32 := Z.
Definition u32 := Z.
Definition float := Z.
Definition ptr := Z.
Definition EntityPtr := Z.
Definition EntityRef := Z.
Definition Vec2 := (float * float)%type.
Definition Vec3 := (float * float * float)%type.
Definition Vec4 := (float * float * float * float)%type.
Definition IVec3 := (i32 * i32 * i32)%type.
Definition DVec3 := (Z * Z * Z)%type.
Definition Quat := (float * float * float * float)%type.
Definition Color := u32.

(** [Path]: a path object; [c_str] is the address of its character data. *)
Record Path := mkPath { path_data_addr : ptr; path_hash : u32 }.
Definition c_str (p : Path) : ptr := path_data_addr p.

(* ------------------------------------------------------------------ *)
(** ** Variant (reflection.h, struct Variant) *)
Module VariantM.

Inductive Type_ :=
  VOID | PTR | BOOL | I32 | U32 | FLOAT | CSTR | ENTITY
| VEC2 | VEC3 | VEC4 | DVEC3 | COLOR | QUAT.

Definition Type_eqb (a b : Type_) : bool :=
  match a, b with
  | VOID, VOID | PTR, PTR | BOOL, BOOL | I32, I32 | U32, U32
  | FLOAT, FLOAT | CSTR, CSTR | ENTITY, ENTITY | VEC2, VEC2 | VEC3, VEC3
  | VEC4, VEC4 | DVEC3, DVEC3 | COLOR, COLOR | QUAT, QUAT => true
  | _, _ => false
  end.

(** The anonymous union: the member that was last written, with its value. *)
Inductive Union :=
| m_b (b : bool) | m_i (i : i32) | m_u (u : u32) | m_f (f : float)
| m_s (s : ptr) | m_e (e : EntityPtr) | m_v2 (v : Vec2) | m_v3 (v : Vec3)
| m_v4 (v : Vec4) | m_dv3 (v : DVec3) | m_ptr (p : ptr) | m_color (c : Color)
| m_quat (q : Quat).

Record Variant := mkVariant { type : Type_; data : Union }.

(** [Variant() { type = I32; i = 0; }] *)
Definition Variant_default : Variant := mkVariant I32 (m_i 0).

(** The argument of one of the fourteen [operator =] overloads. *)
Inductive AssignArg :=
| A_bool (v : bool) | A_i32 (v : i32) | A_u32 (v : u32) | A_float (v : float)
| A_Path (v : Path) | A_cstr (v : ptr) | A_EntityPtr (v : EntityPtr)
| A_Vec2 (v : Vec2) | A_Vec3 (v : Vec3) | A_Vec4 (v : Vec4)
| A_DVec3 (v : DVec3) | A_voidptr (v : ptr) | A_Color (v : Color)
| A_Quat (v : Quat).

(** [void operator =(...)] : each overload writes one member and the tag. *)
Definition assign (_ : Variant) (x : AssignArg) : Variant :=
  match x with
  | A_bool v => mkVariant BOOL (m_b v)
  | A_i32 v => mkVariant I32 (m_i v)
  | A_u32 v => mkVariant U32 (m_u v)
  | A_float v => mkVariant FLOAT (m_f v)
  | A_Path v => mkVariant CSTR (m_s (c_str v))
  | A_cstr v => mkVariant CSTR (m_s v)
  | A_EntityPtr v => mkVariant ENTITY (m_e v)
  | A_Vec2 v => mkVariant VEC2 (m_v2 v)
  | A_Vec3 v => mkVariant VEC3 (m_v3 v)
  | A_Vec4 v => mkVariant VEC4 (m_v4 v)
  | A_DVec3 v => mkVariant DVEC3 (m_dv3 v)
  | A_voidptr v => mkVariant PTR (m_ptr v)
  | A_Color c => mkVariant COLOR (m_color c)
  | A_Quat q => mkVariant QUAT (m_quat q)
  end.

(** The tag of the C++ type of an assigned value, as listed in the spec. *)
Definition tag_of_arg (x : AssignArg) : Type_ :=
  match x with
  | A_bool _ => BOOL | A_i32 _ => I32 | A_u32 _ => U32 | A_float _ => FLOAT
  | A_Path _ => CSTR | A_cstr _ => CSTR | A_EntityPtr _ => ENTITY
  | A_Vec2 _ => VEC2 | A_Vec3 _ => VEC3 | A_Vec4 _ => VEC4
  | A_DVec3 _ => DVEC3 | A_voidptr _ => PTR | A_Color _ => COLOR
  | A_Quat _ => QUAT
  end.

(** Reading the union member named by the tag, as a value of the C++ type
    that member has ([v.b] for BOOL, [v.s] for CSTR, ...); [None] when the
    active member is not that one. *)
Definition read_member (v : Variant) : option AssignArg :=
  match type v, data v with
  | BOOL, m_b b => Some (A_bool b)
  | I32, m_i i => Some (A_i32 i)
  | U32, m_u u => Some (A_u32 u)
  | FLOAT, m_f f => Some (A_float f)
  | CSTR, m_s s => Some (A_cstr s)
  | ENTITY, m_e e => Some (A_EntityPtr e)
  | VEC2, m_v2 x => Some (A_Vec2 x)
  | VEC3, m_v3 x => Some (A_Vec3 x)
  | VEC4, m_v4 x => Some (A_Vec4 x)
  | DVEC3, m_dv3 x => Some (A_DVec3 x)
  | PTR, m_ptr p => Some (A_voidptr p)
  | COLOR, m_color c => Some (A_Color c)
  | QUAT, m_quat q => Some (A_Quat q)
  | _, _ => None
  end.

End VariantM.

(* ------------------------------------------------------------------ *)
(** ** C++ types, TypeDescriptor, FunctionBase and Event *)
Module Types.
Import VariantM.

(** The C++ types that may appear as argument types of a bound method.
    [T_cstr] is [const char*]; [T_class n] is any other named type
    (a struct such as [IVec3], a 64-bit integer, ...). *)
Inductive cty :=
| T_void | T_bool | T_i32 | T_u32 | T_float | T_cstr
| T_EntityPtr | T_EntityRef | T_Vec2 | T_Vec3 | T_Vec4 | T_Path
| T_Color | T_DVec3 | T_Quat
| T_class (n : string)
| T_ptr (t : cty)
| T_const (t : cty)
| T_ref (t : cty).

Definition RemoveReference (t : cty) : cty :=
  match t with T_ref u => u | _ => t end.
Definition RemoveConst (t : cty) : cty :=
  match t with T_const u => u | _ => t end.
(** [RemoveCVR<T>]: drop the reference, then the top-level const. *)
Definition RemoveCVR (t : cty) : cty := RemoveConst (RemoveReference t).
Definition RemovePointer (t : cty) : cty :=
  match t with T_ptr u => u | _ => t end.

(** The [_getVariantType] overload set: the non-template overloads are exact
    matches; every other type falls to one of the two templates, giving PTR. *)
Definition _getVariantType (t : cty) : Type_ :=
  match t with
  | T_void => VOID | T_bool => BOOL | T_i32 => I32 | T_u32 => U32
  | T_float => FLOAT | T_cstr => CSTR | T_EntityPtr => ENTITY
  | T_EntityRef => ENTITY | T_Vec2 => VEC2 | T_Vec3 => VEC3 | T_Vec4 => VEC4
  | T_Path => CSTR | T_Color => COLOR | T_DVec3 => DVEC3 | T_Quat => QUAT
  | T_class _ | T_ptr _ | T_const _ | T_ref _ => PTR
  end.

Definition getVariantType (t : cty) : Type_ := _getVariantType (RemoveCVR t).

(** [TypeDescriptor]; [type_name] and [size] are compiler-provided strings
    and sizes that no operation modelled here reads, so they are left out. *)
Record TypeDescriptor := mkTD {
  td_type : Type_;
  is_const : bool;
  is_reference : bool;
  is_pointer : bool }.

Definition is_ptr_type (t : cty) : bool :=
  match t with T_ptr _ | T_cstr => true | _ => false end.

Definition toTypeDescriptor (t : cty) : TypeDescriptor :=
  mkTD (getVariantType t)
       (match t with T_const _ => true | _ => false end)
       (match t with T_ref _ => true | _ => false end)
       (is_ptr_type t).

(** The trailing element [Variant::Type::VOID] of the [expand] arrays: a
    TypeDescriptor whose first member is VOID, the others zero. *)
Definition void_td : TypeDescriptor := mkTD VOID false false false.

(** [ArgToTypeDescriptor<R C::*(Args...)>::get(i)]. *)
Definition ArgToTypeDescriptor_get (args : list cty) (i : nat) : TypeDescriptor :=
  nth i (map toTypeDescriptor args ++ [void_td]) void_td.

(** A [FunctionBase] as made by [Function<F>]: its name, the parameter types
    and the return type of the bound method [F]. *)
Record FunctionBase := mkFunction {
  fn_name : string;
  fn_args : list cty;
  fn_ret : cty }.

Definition getArgCount (f : FunctionBase) : nat := List.length (fn_args f).
Definition getArgType (f : FunctionBase) (i : nat) : TypeDescriptor :=
  ArgToTypeDescriptor_get (fn_args f) i.

(** One raw binding of a delegate list: the bound object and the stub
    ([getDelegateStub]) of the function bound. *)
Record RawBinding := mkRaw { rb_object : ptr; rb_stub : FunctionBase }.

(** Modelled from the spec: [DelegateList::bindRaw] (core/delegate_list.h,
    not in this excerpt) attaches one more callee to the delegate list. *)
Definition bindRaw (dl : list RawBinding) (obj : ptr) (stub : FunctionBase)
  : list RawBinding := dl ++ [mkRaw obj stub].

(** [Event<DelegateList<void(Args...)>& C::*()>]: the argument types of the
    event's delegate list. *)
Record Event := mkEvent { ev_name : string; ev_args : list cty }.

Definition Event_getArgCount (e : Event) : nat := List.length (ev_args e).
Definition Event_getArgType (e : Event) (i : nat) : TypeDescriptor :=
  ArgToTypeDescriptor_get (ev_args e) i.

(** The loop [for (u32 i = 0; i < fn->getArgCount(); ++i) if (...) return false;]
    run from index [i] with [k] iterations left. *)
Fixpoint bind_loop (e : Event) (fn : FunctionBase) (i k : nat) : bool :=
  match k with
  | O => true
  | S k' =>
      if Type_eqb (td_type (getArgType fn i))
                  (td_type (ArgToTypeDescriptor_get (ev_args e) i))
      then bind_loop e fn (S i) k'
      else false
  end.

(** [Event::bind(void* object, void* fn_object, FunctionBase* fn)]: the
    delegate list returned by [(s->*function)()] is threaded explicitly. *)
Definition bind (e : Event) (dl : list RawBinding) (fn_object : ptr)
  (fn : FunctionBase) : bool * list RawBinding :=
  if negb (Nat.eqb (getArgCount fn) (List.length (ev_args e))) then (false, dl)
  else if negb (bind_loop e fn 0 (getArgCount fn)) then (false, dl)
  else (true, bindRaw dl fn_object fn).

End Types.

(* ------------------------------------------------------------------ *)
(** ** Function<F>::invoke and VariantCaller::call *)
Module Invoke.
Import VariantM.

(** [memcpy(dst, src, n)] on the byte span [dst]. *)
Definition memcpy (dst src : list Z) (n : nat) : list Z :=
  firstn n src ++ skipn n dst.

Section Invoke.
(** [C] is the state of the object the method is called on, [R] its
    return type. *)
Context {C R : Type}.

(** The return type of the bound method: [void], or a value type with its
    [sizeof] and the object representation of each value. *)
Inductive ReturnType :=
| RetVoid
| RetValue (sizeof : nat) (bytes : R -> list Z).

(** [Function<F>]: the bound method, called with the unpacked arguments
    ([fromVariant] applied to [args]), gives a value and the new object. *)
Record Function := mkFunction {
  method : C -> list Variant -> R * C;
  ret : ReturnType }.

(** [VariantCaller<R C::*(Args...)>::call]: returns the new object state
    and the content of [ret_mem]. *)
Definition VariantCaller_call (f : Function) (inst : C) (ret_mem : list Z)
  (args : list Variant) : C * list Z :=
  match ret f with
  | RetVoid => (snd (method f inst args), ret_mem)
  | RetValue sizeof bytes =>
      let '(v, inst') := method f inst args in
      if Nat.eqb (List.length ret_mem) sizeof
      then (inst', memcpy ret_mem (bytes v) sizeof)
      else (inst', ret_mem)
  end.

(** [Function::invoke(void* obj, Span<u8> ret_mem, Span<const Variant> args)]. *)
Definition invoke (f : Function) (obj : C) (ret_mem : list Z)
  (args : list Variant) : C * list Z :=
  VariantCaller_call f obj ret_mem args.

End Invoke.
Arguments ReturnType : clear implicits.
Arguments Function : clear implicits.
End Invoke.

(* ------------------------------------------------------------------ *)
(** ** Attributes, properties, components and the visitor *)
Module Refl.
Import Types.

(** [IAttribute::Type] *)
Inductive AttrType :=
  MIN | CLAMP | RADIANS | COLOR | RESOURCE | ENUM | MULTILINE | STRING_ENUM | NO_UI.

Definition AttrType_eqb (a b : AttrType) : bool :=
  match a, b with
  | MIN, MIN | CLAMP, CLAMP | RADIANS, RADIANS | COLOR, COLOR
  | RESOURCE, RESOURCE | ENUM, ENUM | MULTILINE, MULTILINE
  | STRING_ENUM, STRING_ENUM | NO_UI, NO_UI => true
  | _, _ => false
  end.

(** The attribute classes; the enum attributes are abstract classes, a
    concrete one is named by its subclass. *)
Inductive IAttribute :=
| MinAttribute (min : float)
| ClampAttribute (min max : float)
| RadiansAttribute
| ColorAttribute
| ResourceAttribute (resource_type : Z)
| EnumAttribute (subclass : string)
| MultilineAttribute
| StringEnumAttribute (subclass : string)
| NoUIAttribute.

(** [virtual Type getType() const] of each attribute class. *)
Definition getType (a : IAttribute) : AttrType :=
  match a with
  | MinAttribute _ => MIN | ClampAttribute _ _ => CLAMP
  | RadiansAttribute => RADIANS | ColorAttribute => COLOR
  | ResourceAttribute _ => RESOURCE | EnumAttribute _ => ENUM
  | MultilineAttribute => MULTILINE | StringEnumAttribute _ => STRING_ENUM
  | NoUIAttribute => NO_UI
  end.

(** Outcome of an operation that may go through a null pointer. *)
Inductive outcome (A : Type) :=
| Ok (a : A)
| NullPointer (what : string).
Arguments Ok {A} a.
Arguments NullPointer {A} what.

Section Properties.
(** The state of the module ([IModule]) the accessors read and write. *)
Context (IModule : Type).

(** [Property<T>]: the getter is assigned by every construction path
    ([builder::prop], [builder::var_prop]); the setter is [nullptr] for a
    property registered without one. *)
Record Property (T : Type) := mkProperty {
  name : string;
  attributes : list IAttribute;
  setter : option (IModule -> EntityRef -> u32 -> T -> IModule);
  getter : IModule -> EntityRef -> u32 -> T }.

(** [ComponentUID]: module, component type and entity. *)
Record ComponentUID := mkUID { cu_module : IModule; cu_type : Z; cu_entity : EntityPtr }.

(** [Property<T>::get] *)
Definition get {T} (p : Property T) (cmp : ComponentUID) (idx : u32) : T :=
  getter T p (cu_module cmp) (cu_entity cmp) idx.

(** [Property<T>::set]: calls [setter] with no check; a null [setter] is a
    call through a null function pointer. *)
Definition set {T} (p : Property T) (cmp : ComponentUID) (idx : u32) (val : T)
  : outcome IModule :=
  match setter T p with
  | Some s => Ok (s (cu_module cmp) (cu_entity cmp) idx val)
  | None => NullPointer "Property::setter"
  end.

(** [Property<T>::isReadonly] *)
Definition isReadonly {T} (p : Property T) : bool :=
  match setter T p with None => true | Some _ => false end.

(** [getAttribute(prop, type)]: the range-for over [prop.attributes]. *)
Fixpoint getAttribute_loop (attrs : list IAttribute) (type : AttrType)
  : option IAttribute :=
  match attrs with
  | [] => None
  | attr :: rest =>
      if AttrType_eqb (getType attr) type then Some attr
      else getAttribute_loop rest type
  end.

Definition getAttribute {T} (prop : Property T) (type : AttrType) : option IAttribute :=
  getAttribute_loop (attributes T prop) type.

(** [BlobProperty]: a byte-stream getter and setter. *)
Record BlobProperty := mkBlobProperty {
  b_name : string;
  b_attributes : list IAttribute;
  b_getter : IModule -> EntityRef -> u32 -> list Z;
  b_setter : IModule -> EntityRef -> u32 -> list Z -> IModule }.

(** [PropertyBase] and its concrete classes: one [Property<T>] per value
    type of [IPropertyVisitor], [ArrayProperty] and [BlobProperty]. *)
Inductive PropertyBase :=
| P_float (p : Property float)
| P_int (p : Property i32)
| P_u32 (p : Property u32)
| P_EntityPtr (p : Property EntityPtr)
| P_Vec2 (p : Property Vec2)
| P_Vec3 (p : Property Vec3)
| P_IVec3 (p : Property IVec3)
| P_Vec4 (p : Property Vec4)
| P_Path (p : Property Path)
| P_bool (p : Property bool)
| P_cstr (p : Property ptr)
| P_array (a : ArrayProperty)
| P_blob (b : BlobProperty)
(** [ArrayProperty]: name, attributes, [children], [counter], [adder],
    [remover]. *)
with ArrayProperty :=
| mkArrayProperty (a_name : string) (a_attributes : list IAttribute)
    (children : list PropertyBase)
    (counter : IModule -> EntityRef -> u32)
    (adder : IModule -> EntityRef -> u32 -> IModule)
    (remover : IModule -> EntityRef -> u32 -> IModule).

Definition children (a : ArrayProperty) : list PropertyBase :=
  match a with mkArrayProperty _ _ c _ _ _ => c end.

(** [ComponentBase]: its properties and functions in registration order. *)
Record ComponentBase := mkComponentBase {
  icon : string;
  cmp_name : string;
  label : string;
  creator : IModule -> EntityRef -> IModule;
  destroyer : IModule -> EntityRef -> IModule;
  component_type : Z;
  props : list PropertyBase;
  functions : list FunctionBase }.

(** [RegisteredComponent] *)
Record RegisteredComponent := mkRegistered {
  name_hash : Z;
  module_hash : Z;
  rc_cmp : ComponentBase }.

(** Modelled from the spec: [getComponent(cmp_type)] (defined in
    reflection.cpp, not in this excerpt) looks the type up in the registry
    of registered components and returns null ([None]) on a lookup miss. *)
Fixpoint getComponent (registry : list RegisteredComponent) (cmp_type : Z)
  : option ComponentBase :=
  match registry with
  | [] => None
  | r :: rest =>
      if Z.eqb (component_type (rc_cmp r)) cmp_type then Some (rc_cmp r)
      else getComponent rest cmp_type
  end.

(** [IPropertyVisitor], with the visitor's own state [S] passed along. *)
Record IPropertyVisitor (S : Type) := mkVisitor {
  visit_float : Property float -> S -> S;
  visit_int : Property i32 -> S -> S;
  visit_u32 : Property u32 -> S -> S;
  visit_EntityPtr : Property EntityPtr -> S -> S;
  visit_Vec2 : Property Vec2 -> S -> S;
  visit_Vec3 : Property Vec3 -> S -> S;
  visit_IVec3 : Property IVec3 -> S -> S;
  visit_Vec4 : Property Vec4 -> S -> S;
  visit_Path : Property Path -> S -> S;
  visit_bool : Property bool -> S -> S;
  visit_cstr : Property ptr -> S -> S;
  visit_array : ArrayProperty -> S -> S;
  visit_blob : BlobProperty -> S -> S }.

(** [PropertyBase::visit] of each concrete class: [visitor.visit( *this)]. *)
Definition PropertyBase_visit {S} (V : IPropertyVisitor S) (p : PropertyBase)
  (s : S) : S :=
  match p with
  | P_float q => visit_float S V q s
  | P_int q => visit_int S V q s
  | P_u32 q => visit_u32 S V q s
  | P_EntityPtr q => visit_EntityPtr S V q s
  | P_Vec2 q => visit_Vec2 S V q s
  | P_Vec3 q => visit_Vec3 S V q s
  | P_IVec3 q => visit_IVec3 S V q s
  | P_Vec4 q => visit_Vec4 S V q s
  | P_Path q => visit_Path S V q s
  | P_bool q => visit_bool S V q s
  | P_cstr q => visit_cstr S V q s
  | P_array a => visit_array S V a s
  | P_blob b => visit_blob S V b s
  end.

(** Modelled from the spec: [ComponentBase::visit] (reflection.cpp, not in
    this excerpt) visits every property of the component, in order. *)
Definition ComponentBase_visit {S} (V : IPropertyVisitor S) (c : ComponentBase)
  (s : S) : S :=
  fold_left (fun s p => PropertyBase_visit V p s) (props c) s.

(** [IEmptyPropertyVisitor]: every overload does nothing. *)
Definition IEmptyPropertyVisitor (S : Type) : IPropertyVisitor S :=
  mkVisitor S (fun _ s => s) (fun _ s => s) (fun _ s => s) (fun _ s => s)
    (fun _ s => s) (fun _ s => s) (fun _ s => s) (fun _ s => s)
    (fun _ s => s) (fun _ s => s) (fun _ s => s) (fun _ s => s)
    (fun _ s => s).

(** *** forEachProperty *)

(** One call [f(prop, parent)]: the property and the array it is nested in. *)
Definition Call := (PropertyBase * option ArrayProperty)%type.

(** State of the local [Helper]: its [parent] member, and the calls made to
    [f] so far (what the callable observes). *)
Record Helper := mkHelper { parent : option ArrayProperty; calls : list Call }.

Definition call_f (p : PropertyBase) (h : Helper) : Helper :=
  mkHelper (parent h) (calls h ++ [(p, parent h)]).

(** [Helper::visit]; for an [ArrayProperty]: [f(prop, parent);
    parent = &prop; prop.visitChildren( *this); parent = nullptr;].
    Modelled from the spec: [ArrayProperty::visitChildren] (reflection.cpp,
    not in this excerpt) visits every child, in order. *)
Fixpoint Helper_visit (p : PropertyBase) (h : Helper) : Helper :=
  match p with
  | P_array a =>
      let h1 := call_f p h in
      let h2 := mkHelper (Some a) (calls h1) in
      let h3 := fold_left (fun h c => Helper_visit c h)
                  (match a with mkArrayProperty _ _ ch _ _ _ => ch end) h2 in
      mkHelper None (calls h3)
  | _ => call_f p h
  end.

(** [forEachProperty(cmp_type, f)]: the calls made to [f]. *)
Definition forEachProperty (registry : list RegisteredComponent) (cmp_type : Z)
  : list Call :=
  let h := mkHelper None [] in
  match getComponent registry cmp_type with
  | Some cmp => calls (fold_left (fun h p => Helper_visit p h) (props cmp) h)
  | None => calls h
  end.

(** *** getPropertyValue *)

(** The value types [T] with a [Property<T>] overload in [IPropertyVisitor]. *)
Inductive vty :=
  V_float | V_int | V_u32 | V_EntityPtr | V_Vec2 | V_Vec3 | V_IVec3 | V_Vec4
| V_Path | V_bool | V_cstr.

Definition denote (t : vty) : Type :=
  match t with
  | V_float => float | V_int => i32 | V_u32 => u32 | V_EntityPtr => EntityPtr
  | V_Vec2 => Vec2 | V_Vec3 => Vec3 | V_IVec3 => IVec3 | V_Vec4 => Vec4
  | V_Path => Path | V_bool => bool | V_cstr => ptr
  end.

(** A visitor deriving from [IEmptyPropertyVisitor] that overrides only
    [visit(const Property<T>&)]. *)
Definition override_visit {S} (t : vty) (f : Property (denote t) -> S -> S)
  : IPropertyVisitor S :=
  let E := IEmptyPropertyVisitor S in
  match t return (Property (denote t) -> S -> S) -> IPropertyVisitor S with
  | V_float => fun f => mkVisitor S f (visit_int S E) (visit_u32 S E)
      (visit_EntityPtr S E) (visit_Vec2 S E) (visit_Vec3 S E) (visit_IVec3 S E)
      (visit_Vec4 S E) (visit_Path S E) (visit_bool S E) (visit_cstr S E)
      (visit_array S E) (visit_blob S E)
  | V_int => fun f => mkVisitor S (visit_float S E) f (visit_u32 S E)
      (visit_EntityPtr S E) (visit_Vec2 S E) (visit_Vec3 S E) (visit_IVec3 S E)
      (visit_Vec4 S E) (visit_Path S E) (visit_bool S E) (visit_cstr S E)
      (visit_array S E) (visit_blob S E)
  | V_u32 => fun f => mkVisitor S (visit_float S E) (visit_int S E) f
      (visit_EntityPtr S E) (visit_Vec2 S E) (visit_Vec3 S E) (visit_IVec3 S E)
      (visit_Vec4 S E) (visit_Path S E) (visit_bool S E) (visit_cstr S E)
      (visit_array S E) (visit_blob S E)
  | V_EntityPtr => fun f => mkVisitor S (visit_float S E) (visit_int S E)
      (visit_u32 S E) f (visit_Vec2 S E) (visit_Vec3 S E) (visit_IVec3 S E)
      (visit_Vec4 S E) (visit_Path S E) (visit_bool S E) (visit_cstr S E)
      (visit_array S E) (visit_blob S E)
  | V_Vec2 => fun f => mkVisitor S (visit_float S E) (visit_int S E)
      (visit_u32 S E) (visit_EntityPtr S E) f (visit_Vec3 S E) (visit_IVec3 S E)
      (visit_Vec4 S E) (visit_Path S E) (visit_bool S E) (visit_cstr S E)
      (visit_array S E) (visit_blob S E)
  | V_Vec3 => fun f => mkVisitor S (visit_float S E) (visit_int S E)
      (visit_u32 S E) (visit_EntityPtr S E) (visit_Vec2 S E) f (visit_IVec3 S E)
      (visit_Vec4 S E) (visit_Path S E) (visit_bool S E) (visit_cstr S E)
      (visit_array S E) (visit_blob S E)
  | V_IVec3 => fun f => mkVisitor S (visit_float S E) (visit_int S E)
      (visit_u32 S E) (visit_EntityPtr S E) (visit_Vec2 S E) (visit_Vec3 S E) f
      (visit_Vec4 S E) (visit_Path S E) (visit_bool S E) (visit_cstr S E)
      (visit_array S E) (visit_blob S E)
  | V_Vec4 => fun f => mkVisitor S (visit_float S E) (visit_int S E)
      (visit_u32 S E) (visit_EntityPtr S E) (visit_Vec2 S E) (visit_Vec3 S E)
      (visit_IVec3 S E) f (visit_Path S E) (visit_bool S E) (visit_cstr S E)
      (visit_array S E) (visit_blob S E)
  | V_Path => fun f => mkVisitor S (visit_float S E) (visit_int S E)
      (visit_u32 S E) (visit_EntityPtr S E) (visit_Vec2 S E) (visit_Vec3 S E)
      (visit_IVec3 S E) (visit_Vec4 S E) f (visit_bool S E) (visit_cstr S E)
      (visit_array S E) (visit_blob S E)
  | V_bool => fun f => mkVisitor S (visit_float S E) (visit_int S E)
      (visit_u32 S E) (visit_EntityPtr S E) (visit_Vec2 S E) (visit_Vec3 S E)
      (visit_IVec3 S E) (visit_Vec4 S E) (visit_Path S E) f (visit_cstr S E)
      (visit_array S E) (visit_blob S E)
  | V_cstr => fun f => mkVisitor S (visit_float S E) (visit_int S E)
      (visit_u32 S E) (visit_EntityPtr S E) (visit_Vec2 S E) (visit_Vec3 S E)
      (visit_IVec3 S E) (visit_Vec4 S E) (visit_Path S E) (visit_bool S E) f
      (visit_array S E) (visit_blob S E)
  end f.

(** The [Property<T>] a property is, if it is one. *)
Definition as_property (t : vty) (p : PropertyBase) : option (Property (denote t)) :=
  match t return option (Property (denote t)) with
  | V_float => match p with P_float q => Some q | _ => None end
  | V_int => match p with P_int q => Some q | _ => None end
  | V_u32 => match p with P_u32 q => Some q | _ => None end
  | V_EntityPtr => match p with P_EntityPtr q => Some q | _ => None end
  | V_Vec2 => match p with P_Vec2 q => Some q | _ => None end
  | V_Vec3 => match p with P_Vec3 q => Some q | _ => None end
  | V_IVec3 => match p with P_IVec3 q => Some q | _ => None end
  | V_Vec4 => match p with P_Vec4 q => Some q | _ => None end
  | V_Path => match p with P_Path q => Some q | _ => None end
  | V_bool => match p with P_bool q => Some q | _ => None end
  | V_cstr => match p with P_cstr q => Some q | _ => None end
  end.

(** [T value = {}]: the value-initialised [T] (its constructors live in
    core headers outside this excerpt). *)
Context (value_init : forall t : vty, denote t).

(** The members [value] and [found] of the local visitor. *)
Record GPV (t : vty) := mkGPV { value : denote t; found : bool }.

(** [u32] index [-1]. *)
Definition u32_minus_one : u32 := 4294967295.

Definition getPropertyValue_visitor (t : vty) (cmp : ComponentUID)
  (prop_name : string) : IPropertyVisitor (GPV t) :=
  override_visit t (fun prop st =>
    if String.eqb (name (denote t) prop) prop_name
    then mkGPV t (get prop cmp u32_minus_one) true
    else st).

(** [getPropertyValue<T>(module, e, cmp_type, prop_name, out)]: the value
    written to [out] and the result; [cmp_desc->visit] goes through the
    pointer returned by [getComponent] without a check. *)
Definition getPropertyValue (registry : list RegisteredComponent) (t : vty)
  (module : IModule) (e : EntityRef) (cmp_type : Z) (prop_name : string)
  : outcome (denote t * bool) :=
  let cmp := mkUID module cmp_type e in
  let visitor := getPropertyValue_visitor t cmp prop_name in
  match getComponent registry cmp_type with
  | None => NullPointer "cmp_desc"
  | Some cmp_desc =>
      let st := ComponentBase_visit visitor cmp_desc (mkGPV t (value_init t) false) in
      Ok (value t st, found t st)
  end.

(** *** builder *)

(** The two shapes of a module getter accepted by [builder::prop]:
    [ArgsCount == 1] ([T get(EntityRef)]) or [T get(EntityRef, u32)]. *)
Inductive MGetter (T : Type) :=
| G1 (g : IModule -> EntityRef -> T)
| G2 (g : IModule -> EntityRef -> u32 -> T).

(** The two shapes of a module setter: [ArgsCount == 2]
    ([set(EntityRef, T)]) or [set(EntityRef, u32, T)]. *)
Inductive MSetter (T : Type) :=
| S2 (s : IModule -> EntityRef -> T -> IModule)
| S3 (s : IModule -> EntityRef -> u32 -> T -> IModule).

Arguments G1 {T} g.
Arguments G2 {T} g.
Arguments S2 {T} s.
Arguments S3 {T} s.

Definition call_getter {T} (g : MGetter T) (module : IModule) (e : EntityRef)
  (idx : u32) : T :=
  match g with G1 g => g module e | G2 g => g module e idx end.

Definition call_setter {T} (s : MSetter T) (module : IModule) (e : EntityRef)
  (idx : u32) (value : T) : IModule :=
  match s with S2 s => s module e value | S3 s => s module e idx value end.

(** The [Property<T>] that [builder::prop<Getter, Setter>(name)] builds for
    a non-enum [T] (before [addProp]); [Setter] defaults to [nullptr]. *)
Definition prop_property {T} (name : string) (Getter : MGetter T)
  (Setter : option (MSetter T)) : Property T :=
  mkProperty T name []
    (match Setter with
     | None => None
     | Some s => Some (fun module e idx value => call_setter s module e idx value)
     end)
    (fun module e idx => call_getter Getter module e idx).

(** An enum type with a fixed underlying integer type of [width] bits. *)
Record EnumType := mkEnumType { width : Z; is_signed : bool }.

(** Integral conversion to a [w]-bit type (modular). *)
Definition wrap (w : Z) (signed : bool) (x : Z) : Z :=
  let m := x mod 2 ^ w in
  if signed && (2 ^ (w - 1) <=? m) then m - 2 ^ w else m.

(** [static_cast<T>(value)] from [i32] to the enum: the value of the
    enum is its underlying integer. *)
Definition cast_to_enum (E : EnumType) (v : i32) : Z :=
  wrap (width E) (is_signed E) v.

(** [static_cast<i32>(x)] of an enum value. *)
Definition cast_to_i32 (x : Z) : i32 := wrap 32 true x.

(** The [Property<i32>] that [builder::prop] builds when [__is_enum(T)]:
    [Backing] is [i32] and both lambdas cast at the boundary. *)
Definition prop_property_enum (E : EnumType) (name : string)
  (Getter : MGetter Z) (Setter : option (MSetter Z)) : Property i32 :=
  mkProperty i32 name []
    (match Setter with
     | None => None
     | Some s => Some (fun module e idx (value : i32) =>
                   call_setter s module e idx (cast_to_enum E value))
     end)
    (fun module e idx => cast_to_i32 (call_getter Getter module e idx)).

(** [Module]: free functions, events and components of one module. *)
Record Module_ := mkModule {
  m_name : string;
  m_functions : list FunctionBase;
  m_events : list Event;
  cmps : list ComponentBase }.

(** The [builder]'s [module]; [array] and [last_prop] are not touched by
    [cmp], [function] and [event]. *)
Record builder := mkBuilder { module : Module_ }.

(** Modelled from the spec: [getComponentType(name)] (reflection.cpp, not
    in this excerpt), the integer handle of a component name. *)
Context (getComponentType : string -> Z).

(** Modelled from the spec: [builder::registerCmp] (reflection.cpp, not in
    this excerpt) adds the new component to the module being built, after
    the ones opened before; [cmp] "opens a new component". *)
Definition registerCmp (b : builder) (cmp : ComponentBase) : builder :=
  let m := module b in
  mkBuilder (mkModule (m_name m) (m_functions m) (m_events m) (cmps m ++ [cmp])).

(** [builder::cmp<Creator, Destroyer>(name, label)] *)
Definition builder_cmp (b : builder) (Creator Destroyer : IModule -> EntityRef -> IModule)
  (name label : string) : builder :=
  registerCmp b (mkComponentBase "" name label Creator Destroyer
                   (getComponentType name) [] []).

Definition push_function (c : ComponentBase) (f : FunctionBase) : ComponentBase :=
  mkComponentBase (icon c) (cmp_name c) (label c) (creator c) (destroyer c)
    (component_type c) (props c) (functions c ++ [f]).

(** [module->cmps.back()->functions.push(f)] *)
Fixpoint push_to_back (cs : list ComponentBase) (f : FunctionBase) : list ComponentBase :=
  match cs with
  | [] => []
  | [c] => [push_function c f]
  | c :: rest => c :: push_to_back rest f
  end.

(** [builder::function<F>(name)] *)
Definition builder_function (b : builder) (F : FunctionBase) (name : string) : builder :=
  let f := mkFunction name (fn_args F) (fn_ret F) in
  let m := module b in
  match cmps m with
  | [] => mkBuilder (mkModule (m_name m) (m_functions m ++ [f]) (m_events m) (cmps m))
  | _ :: _ => mkBuilder (mkModule (m_name m) (m_functions m) (m_events m)
                           (push_to_back (cmps m) f))
  end.

(** [builder::event<F>(name)] *)
Definition builder_event (b : builder) (F : Event) (name : string) : builder :=
  let f := mkEvent name (ev_args F) in
  let m := module b in
  mkBuilder (mkModule (m_name m) (m_functions m) (m_events m ++ [f]) (cmps m)).

End Properties.
End Refl.

(* ------------------------------------------------------------------ *)
(** ** Boxing into and out of Variants *)
Module Boxing.
Import VariantM Types.

(** The C++ type of the argument of each [Variant::operator =]. *)
Definition cty_of_arg (x : AssignArg) : cty :=
  match x with
  | A_bool _ => T_bool | A_i32 _ => T_i32 | A_u32 _ => T_u32 | A_float _ => T_float
  | A_Path _ => T_Path | A_cstr _ => T_cstr | A_EntityPtr _ => T_EntityPtr
  | A_Vec2 _ => T_Vec2 | A_Vec3 _ => T_Vec3 | A_Vec4 _ => T_Vec4
  | A_DVec3 _ => T_DVec3 | A_voidptr _ => T_ptr (T_class "void")
  | A_Color _ => T_Color | A_Quat _ => T_Quat
  end.

(** [Event::toVariant(T value) { Variant v; v = value; return v; }], for
    [T] one of the parameter types of the [operator =] overloads (a value of
    another type that converts implicitly to one of them, such as [u8] or
    [char*], is not covered). [value] is toVariant's own by-value
    parameter: for a [Path] it is a copy of the caller's path, whose
    [c_str()] is [copy_c_str], and [v = value] stores that pointer. The
    copy is destroyed when [toVariant] returns. *)
Definition toVariant (copy_c_str : ptr) (x : AssignArg) : Variant :=
  match x with
  | A_Path p => assign Variant_default (A_Path (mkPath copy_c_str (path_hash p)))
  | _ => assign Variant_default x
  end.





End Boxing.

(* ------------------------------------------------------------------ *)
(** ** StructVar<Getter> *)
Module StructVars.

Section SV.
(** [Obj] is the struct type [C]; [Getter] names one of its members, whose
    object representation is [sizeof] bytes, read by [load] and written
    by [store]. *)
Context {Obj : Type}.
Record Member := mkMember {
  sizeof : nat;
  load : Obj -> list Z;
  store : Obj -> list Z -> Obj }.

(** [StructVar::set(void* obj, Span<const u8> mem)] *)
Definition set (m : Member) (obj : Obj) (mem : list Z) : bool * Obj :=
  if negb (Nat.eqb (sizeof m) (List.length mem)) then (false, obj)
  else (true, store m obj (Invoke.memcpy (load m obj) mem (sizeof m))).

(** [StructVar::get(const void* obj, Span<u8> mem)]: the result and the
    new content of [mem]. *)
Definition get (m : Member) (obj : Obj) (mem : list Z) : bool * list Z :=
  if negb (Nat.eqb (sizeof m) (List.length mem)) then (false, mem)
  else (true, Invoke.memcpy mem (load m obj) (sizeof m)).

End SV.
Arguments Member : clear implicits.
End StructVars.

(* ------------------------------------------------------------------ *)
(** ** builder::var_prop and builder::attribute *)
Module Builder2.
Import Refl.

Section B.
Context (IModule : Type).

(** [builder::var_prop<Getter, PropGetter>(name)]: [Getter] returns a
    reference to a sub-object [Sub] of the module ([view] reads it, [put]
    writes through the reference); [PropGetter] is a member of [Sub] of
    type [T] ([mget], [mput]). The index argument is ignored. *)
Definition var_prop_property {Sub T : Type} (name : string)
  (view : IModule -> EntityRef -> Sub) (put : IModule -> EntityRef -> Sub -> IModule)
  (mget : Sub -> T) (mput : Sub -> T -> Sub) : Property IModule T :=
  mkProperty IModule T name []
    (Some (fun module e _ value => put module e (mput (view module e) value)))
    (fun module e _ => mget (view module e)).

(** [builder::attribute<A>()]: [last_prop->attributes.push(a)], on a
    [Property<T>]. *)
Definition attribute {T} (p : Property IModule T) (a : IAttribute) : Property IModule T :=
  mkProperty IModule T (name IModule T p) (attributes IModule T p ++ [a])
    (setter IModule T p) (getter IModule T p).

End B.
End Builder2.

(* ------------------------------------------------------------------ *)
(** ** Concrete inputs *)
Module Examples.
Import Refl.

(** A method with a 4-byte return value: it returns the object's counter
    and increments it. *)
Definition counter_fn : Invoke.Function Z Z :=
  Invoke.mkFunction (fun c _ => (c, c + 1))
    (Invoke.RetValue 4 (fun v => [v mod 256; 0; 0; 0])).

(** A module state that is one stored integer. *)
Definition store_getter : MGetter Z Z := @G2 Z Z (fun m _ _ => m).
Definition store_setter : MSetter Z Z := @S3 Z Z (fun _ _ _ x => x).

Definition radius : Property unit float := mkProperty unit float "radius" [] None (fun _ _ _ => 0).
Definition intensity : Property unit float :=
  mkProperty unit float "intensity" [MinAttribute 0] (Some (fun m _ _ _ => m)) (fun _ _ _ => 1).
Definition position : Property unit Vec3 := mkProperty unit Vec3 "position" [] None (fun _ _ _ => (0, 0, 0)).
Definition enabled : Property unit bool := mkProperty unit bool "enabled" [] None (fun _ _ _ => true).

(** An array property with two children, as [begin_array] ... [end_array]. *)
Definition lights : ArrayProperty unit :=
  mkArrayProperty unit "lights" [] [P_Vec3 unit position; P_bool unit enabled]
    (fun _ _ => 2) (fun m _ _ => m) (fun m _ _ => m).

Definition light_cmp : ComponentBase unit :=
  mkComponentBase unit "" "light" "Light" (fun m _ => m) (fun m _ => m) 10
    [P_float unit radius; P_array unit lights; P_float unit intensity] [].

Definition registry : list (RegisteredComponent unit) := [mkRegistered unit 1 2 light_cmp].

(** Value-initialised values ([T value = {}]). *)
Definition zero_init (t : vty) : denote t :=
  match t return denote t with
  | V_float => 0 | V_int => 0 | V_u32 => 0 | V_EntityPtr => 0
  | V_Vec2 => (0, 0) | V_Vec3 => (0, 0, 0) | V_IVec3 => (0, 0, 0)
  | V_Vec4 => (0, 0, 0, 0) | V_Path => mkPath 0 0 | V_bool => false | V_cstr => 0
  end.

Definition empty_builder : builder Z := mkBuilder Z (mkModule Z "renderer" [] [] []).

End Examples.

(* ================================================================== *)
(** * Properties *)

(** ** Event::bind *)
Module BindFacts.
Import VariantM Types.

Lemma Type_eqb_true (a b : Type_) : Type_eqb a b = true <-> a = b.
Proof. destruct a, b; simpl; split; congruence. Qed.

Lemma ArgToTypeDescriptor_get_in (args : list cty) (j : nat) :
  (j < List.length args)%nat ->
  ArgToTypeDescriptor_get args j = toTypeDescriptor (nth j args T_void).
Proof.
  intro Hj. unfold ArgToTypeDescriptor_get.
  rewrite app_nth1 by (rewrite List.length_map; exact Hj).
  change void_td with (toTypeDescriptor T_void).
  apply map_nth.
Qed.

Lemma bind_loop_spec (e : Event) (fn : FunctionBase) (k i : nat) :
  bind_loop e fn i k = true <->
  (forall j, (i <= j < i + k)%nat ->
     td_type (getArgType fn j) = td_type (ArgToTypeDescriptor_get (ev_args e) j)).
Proof.
  revert i. induction k as [|k IH]; intro i; simpl.
  - split; [intros _ j Hj; lia | reflexivity].
  - destruct (Type_eqb _ _) eqn:Heq.
    + apply Type_eqb_true in Heq. rewrite IH. split.
      * intros H j Hj. destruct (Nat.eq_dec j i) as [->|Hne]; [exact Heq|].
        apply H. lia.
      * intros H j Hj. apply H. lia.
    + split; [discriminate|]. intro H.
      assert (Hi := H i ltac:(lia)). apply Type_eqb_true in Hi. congruence.
Qed.

Lemma Forall2_nth_iff {A B} (R : A -> B -> Prop) (l1 : list A) (l2 : list B) dA dB :
  Forall2 R l1 l2 <->
  List.length l1 = List.length l2 /\
  (forall j, (j < List.length l1)%nat -> R (nth j l1 dA) (nth j l2 dB)).
Proof.
  revert l2. induction l1 as [|a l1 IH]; intros [|b l2]; simpl.
  - split; [intros _; split; [reflexivity | intros j Hj; lia] | constructor].
  - split; [intro H; inversion H | intros [H _]; discriminate].
  - split; [intro H; inversion H | intros [H _]; discriminate].
  - split.
    + intro H. inversion H as [|? ? ? ? Hab Hrest]; subst.
      apply IH in Hrest as [Hlen Hall]. split; [congruence|].
      intros [|j] Hj; [exact Hab | apply Hall; lia].
    + intros [Hlen Hall]. constructor.
      * apply (Hall 0%nat). lia.
      * apply IH. split; [lia|]. intros j Hj. apply (Hall (S j)). lia.
Qed.

End BindFacts.

(** C1 (corrected). [Event::bind(object, fn_object, fn)] succeeds exactly
    when [fn] has as many arguments as the event and, position by position,
    the argument types have the same Variant tag ([getVariantType], the
    [.type] of their TypeDescriptors); it then appends one raw binding to
    the delegate list, and otherwise returns false with the list as it was. *)
Theorem bind_checks_variant_tags (e : Types.Event) (dl : list Types.RawBinding)
  (fn_object : ptr) (fn : Types.FunctionBase) :
  (fst (Types.bind e dl fn_object fn) = true <->
   Forall2 (fun a b => Types.getVariantType a = Types.getVariantType b)
     (Types.fn_args fn) (Types.ev_args e)) /\
  snd (Types.bind e dl fn_object fn) =
    (if fst (Types.bind e dl fn_object fn)
     then dl ++ [Types.mkRaw fn_object fn] else dl).
Proof.
  unfold Types.bind, Types.bindRaw, Types.getArgCount.
  rewrite (BindFacts.Forall2_nth_iff _ _ _ Types.T_void Types.T_void).
  destruct (Nat.eqb_spec (List.length (Types.fn_args fn)) (List.length (Types.ev_args e)))
    as [Hlen|Hlen]; simpl.
  - destruct (Types.bind_loop e fn 0 (List.length (Types.fn_args fn))) eqn:Hl; simpl.
    + split; [|reflexivity]. split; [intros _; split; [exact Hlen|] | reflexivity].
      pose proof (proj1 (BindFacts.bind_loop_spec _ _ _ _) Hl) as Hl'. clear Hl.
      rename Hl' into Hl. intros j Hj. specialize (Hl j ltac:(lia)).
      unfold Types.getArgType in Hl.
      rewrite !BindFacts.ArgToTypeDescriptor_get_in in Hl by lia. exact Hl.
    + split; [|reflexivity]. split; [discriminate|]. intros [_ Hall].
      assert (Htrue : Types.bind_loop e fn 0 (List.length (Types.fn_args fn)) = true).
      { apply (proj2 (BindFacts.bind_loop_spec _ _ _ _)). intros j Hj. unfold Types.getArgType.
        rewrite !BindFacts.ArgToTypeDescriptor_get_in by lia.
        simpl. apply Hall. lia. }
      congruence.
  - split; [|reflexivity]. split; [discriminate|]. intros [H _]. contradiction.
Qed.

(** C1 (counterexample). An event whose delegate takes an [EntityPtr]
    accepts a function taking an [EntityRef]: the declared types differ but
    both map to the tag ENTITY, and [bind] returns true. *)
Lemma bind_accepts_different_declared_type :
  Types.T_EntityPtr <> Types.T_EntityRef /\
  Types.bind (Types.mkEvent "entityDestroyed" [Types.T_EntityPtr]) [] 0
    (Types.mkFunction "onEntity" [Types.T_EntityRef] Types.T_void)
  = (true, [Types.mkRaw 0 (Types.mkFunction "onEntity" [Types.T_EntityRef] Types.T_void)]).
Proof. split; [discriminate | reflexivity]. Qed.

(** ** Variant assignment *)

(** C4 (corrected). After [v = x], [v.type] is the tag of [x]'s type and
    the union member named by that tag holds [x] itself, except for a
    [Path], for which the member [s] holds the pointer [x.c_str()]. *)
Theorem variant_assign_tag_and_member (v : VariantM.Variant) (x : VariantM.AssignArg) :
  VariantM.type (VariantM.assign v x) = VariantM.tag_of_arg x /\
  VariantM.read_member (VariantM.assign v x) =
    Some (match x with
          | VariantM.A_Path p => VariantM.A_cstr (c_str p)
          | _ => x
          end).
Proof. destruct x; split; reflexivity. Qed.

(** C4 (counterexample). Assigning a [Path] leaves in the union the address
    of its characters, not the [Path]. *)
Lemma variant_path_not_stored :
  VariantM.read_member (VariantM.assign VariantM.Variant_default
                          (VariantM.A_Path (mkPath 4096 7)))
  <> Some (VariantM.A_Path (mkPath 4096 7)).
Proof. simpl. discriminate. Qed.

(** ** Function::invoke *)

(** C2. For a method with a non-void return type of size [sizeof], [invoke]
    always calls the method, and copies its return value into [ret_mem]
    exactly when [ret_mem] has [sizeof] bytes; otherwise [ret_mem] is
    returned unchanged. *)
Theorem invoke_writes_iff_size_matches {C R : Type} (f : Invoke.Function C R)
  (sizeof : nat) (bytes : R -> list Z) (obj : C) (ret_mem : list Z)
  (args : list VariantM.Variant) :
  Invoke.ret f = Invoke.RetValue sizeof bytes ->
  (forall v, List.length (bytes v) = sizeof) ->
  Invoke.invoke f obj ret_mem args =
    (snd (Invoke.method f obj args),
     if Nat.eqb (List.length ret_mem) sizeof
     then bytes (fst (Invoke.method f obj args)) else ret_mem).
Proof.
  intros Hret Hsize. unfold Invoke.invoke, Invoke.VariantCaller_call.
  rewrite Hret. destruct (Invoke.method f obj args) as [v inst'] eqn:Hm. simpl.
  destruct (Nat.eqb_spec (List.length ret_mem) sizeof) as [Heq|Hne]; [|reflexivity].
  unfold Invoke.memcpy. rewrite <- Heq, skipn_all, app_nil_r.
  rewrite firstn_all2; [reflexivity|]. rewrite Hsize. lia.
Qed.

(** C2 (witness): a 4-byte return into 4 and into 2 bytes of storage. *)
Lemma invoke_writes_iff_size_matches_witness :
  Invoke.ret Examples.counter_fn = Invoke.RetValue 4 (fun v => [v mod 256; 0; 0; 0]) /\
  (forall v, List.length ([v mod 256; 0; 0; 0]) = 4%nat) /\
  Invoke.invoke Examples.counter_fn 5 [9; 9; 9; 9] [] = (6, [5; 0; 0; 0]) /\
  Invoke.invoke Examples.counter_fn 5 [9; 9] [] = (6, [9; 9]).
Proof.
  split; [reflexivity|]. split; [intro; reflexivity|]. split.
  - rewrite (invoke_writes_iff_size_matches Examples.counter_fn 4 (fun v => [v mod 256; 0; 0; 0]) 5
               [9; 9; 9; 9] [] eq_refl (fun v => eq_refl)). reflexivity.
  - rewrite (invoke_writes_iff_size_matches Examples.counter_fn 4 (fun v => [v mod 256; 0; 0; 0]) 5
               [9; 9] [] eq_refl (fun v => eq_refl)). reflexivity.
Defined.

(** ** getAttribute *)
Module AttrFacts.
Import Refl.

Lemma AttrType_eqb_true (a b : AttrType) : AttrType_eqb a b = true <-> a = b.
Proof. destruct a, b; simpl; split; congruence. Qed.

Lemma getAttribute_loop_some (attrs : list IAttribute) (type : AttrType) (a : IAttribute) :
  getAttribute_loop attrs type = Some a <->
  exists pre post, attrs = pre ++ a :: post /\ getType a = type /\
                   Forall (fun b => getType b <> type) pre.
Proof.
  induction attrs as [|b rest IH]; simpl.
  - split; [discriminate|]. intros (pre & post & H & _). destruct pre; discriminate.
  - destruct (AttrType_eqb (getType b) type) eqn:Hb.
    + apply AttrType_eqb_true in Hb. split.
      * intro H. injection H as <-. exists [], rest. auto.
      * intros (pre & post & Heq & Ha & Hpre). destruct pre as [|c pre].
        -- injection Heq as -> _. reflexivity.
        -- injection Heq as -> _. inversion Hpre; contradiction.
    + assert (Hne : getType b <> type).
      { intro H. apply AttrType_eqb_true in H. congruence. }
      rewrite IH. split.
      * intros (pre & post & Heq & Ha & Hpre). exists (b :: pre), post.
        subst. auto.
      * intros (pre & post & Heq & Ha & Hpre). destruct pre as [|c pre].
        -- injection Heq as -> _. congruence.
        -- injection Heq as -> Heq. inversion Hpre. eauto.
Qed.

Lemma getAttribute_loop_none (attrs : list IAttribute) (type : AttrType) :
  getAttribute_loop attrs type = None <-> Forall (fun b => getType b <> type) attrs.
Proof.
  induction attrs as [|b rest IH]; simpl.
  - split; constructor || reflexivity.
  - destruct (AttrType_eqb (getType b) type) eqn:Hb.
    + apply AttrType_eqb_true in Hb. split; [discriminate|].
      intro H. inversion H. contradiction.
    + rewrite IH. split.
      * intro H. constructor; [|exact H]. intro E.
        apply AttrType_eqb_true in E. congruence.
      * intro H. inversion H. assumption.
Qed.

End AttrFacts.

(** C10. [getAttribute(prop, type)] returns the first attribute, in the
    order they were attached, whose [getType()] is [type], and null
    ([None]) when no attached attribute has that kind. *)
Theorem getAttribute_first_of_kind {IModule T : Type} (prop : Refl.Property IModule T)
  (type : Refl.AttrType) :
  (forall a, Refl.getAttribute IModule prop type = Some a <->
     exists pre post, Refl.attributes IModule T prop = pre ++ a :: post /\
       Refl.getType a = type /\ Forall (fun b => Refl.getType b <> type) pre) /\
  (Refl.getAttribute IModule prop type = None <->
     Forall (fun b => Refl.getType b <> type) (Refl.attributes IModule T prop)).
Proof.
  unfold Refl.getAttribute. split.
  - intro a. apply AttrFacts.getAttribute_loop_some.
  - apply AttrFacts.getAttribute_loop_none.
Qed.

(** ** forEachProperty *)
Module VisitFacts.
Import Refl.
Section V.
Context {IModule : Type}.

Definition is_array (p : PropertyBase IModule) : bool :=
  match p with P_array _ _ => true | _ => false end.

(** The calls [f] receives for one top-level property, per the spec: the
    property with no parent, then each child of an array with the array. *)
Definition expected_calls (p : PropertyBase IModule) : list (Call IModule) :=
  (p, None) :: match p with
               | P_array _ a => map (fun c => (c, Some a)) (children IModule a)
               | _ => []
               end.

(** The number of children of an array property, 0 for any other. *)
Definition child_count (p : PropertyBase IModule) : nat :=
  match p with P_array _ a => List.length (children IModule a) | _ => 0%nat end.

(** No array property nests another array property (as registered by the
    builder, whose [begin_array] adds the array to the component itself). *)
Definition flat_arrays (p : PropertyBase IModule) : Prop :=
  match p with
  | P_array _ a => Forall (fun c => is_array c = false) (children IModule a)
  | _ => True
  end.

Lemma Helper_visit_leaf (p : PropertyBase IModule) (h : Helper IModule) :
  is_array p = false -> Helper_visit IModule p h = call_f IModule p h.
Proof. destruct p; simpl; congruence. Qed.

Lemma children_fold (a : ArrayProperty IModule) (chs : list (PropertyBase IModule)) acc :
  Forall (fun c => is_array c = false) chs ->
  fold_left (fun h c => Helper_visit IModule c h) chs (mkHelper IModule (Some a) acc)
  = mkHelper IModule (Some a) (acc ++ map (fun c => (c, Some a)) chs).
Proof.
  revert acc. induction chs as [|c chs IH]; intros acc Hf; simpl.
  - rewrite app_nil_r. reflexivity.
  - inversion Hf as [|? ? Hc Hrest]; subst.
    rewrite Helper_visit_leaf by exact Hc. unfold call_f; simpl.
    rewrite IH by exact Hrest. rewrite <- app_assoc. reflexivity.
Qed.

Lemma top_fold (ps : list (PropertyBase IModule)) acc :
  Forall flat_arrays ps ->
  fold_left (fun h p => Helper_visit IModule p h) ps (mkHelper IModule None acc)
  = mkHelper IModule None (acc ++ flat_map expected_calls ps).
Proof.
  revert acc. induction ps as [|p ps IH]; intros acc Hf; simpl.
  - rewrite app_nil_r. reflexivity.
  - inversion Hf as [|? ? Hp Hrest]; subst.
    destruct p as [q|q|q|q|q|q|q|q|q|q|q|a|b]; simpl; unfold call_f; simpl;
      try (rewrite IH by exact Hrest; rewrite <- app_assoc; reflexivity).
    destruct a as [n at_ chs cnt add rem].
    simpl in Hp |- *.
    rewrite children_fold by exact Hp. simpl.
    rewrite IH by exact Hrest. rewrite <- !app_assoc. reflexivity.
Qed.

Lemma expected_calls_length (ps : list (PropertyBase IModule)) :
  List.length (flat_map expected_calls ps) =
  (List.length ps + list_sum (map child_count ps))%nat.
Proof.
  induction ps as [|p ps IH]; simpl; [reflexivity|].
  rewrite length_app, IH. destruct p; simpl; try lia.
  rewrite List.length_map. lia.
Qed.

End V.
End VisitFacts.

(** C3 (spec-modelled visit order). For a registered component whose array
    properties hold no nested arrays, [forEachProperty] calls [f] once per
    top-level property with a null parent and, right after each array,
    once per child of that array with the array as parent; in total
    N + sum k_i calls. *)
Theorem forEachProperty_calls {IModule : Type}
  (registry : list (Refl.RegisteredComponent IModule)) (cmp_type : Z)
  (c : Refl.ComponentBase IModule) :
  Refl.getComponent IModule registry cmp_type = Some c ->
  Forall VisitFacts.flat_arrays (Refl.props IModule c) ->
  Refl.forEachProperty IModule registry cmp_type =
    flat_map VisitFacts.expected_calls (Refl.props IModule c) /\
  List.length (Refl.forEachProperty IModule registry cmp_type) =
    (List.length (Refl.props IModule c) +
     list_sum (map VisitFacts.child_count (Refl.props IModule c)))%nat.
Proof.
  intros Hc Hflat. unfold Refl.forEachProperty. rewrite Hc.
  rewrite VisitFacts.top_fold by exact Hflat. simpl.
  split; [reflexivity|]. apply VisitFacts.expected_calls_length.
Qed.

(** C8 (spec-modelled lookup). When [getComponent] misses, [forEachProperty]
    returns normally without calling [f]. *)
Theorem forEachProperty_lookup_miss {IModule : Type}
  (registry : list (Refl.RegisteredComponent IModule)) (cmp_type : Z) :
  Refl.getComponent IModule registry cmp_type = None ->
  Refl.forEachProperty IModule registry cmp_type = [].
Proof. intro H. unfold Refl.forEachProperty. rewrite H. reflexivity. Qed.

(** ** getPropertyValue *)
Module GPVFacts.
Import Refl.
Section G.
Context {IModule : Type} (value_init : forall t : vty, denote t).

Lemma visit_override {S} (t : vty) (f : Property IModule (denote t) -> S -> S)
  (p : PropertyBase IModule) (s : S) :
  PropertyBase_visit IModule (override_visit IModule t f) p s =
  match as_property IModule t p with Some q => f q s | None => s end.
Proof. destruct t, p; reflexivity. Qed.

(** The last property of [ps] that is a [Property<T>] named [prop_name]. *)
Fixpoint last_match (t : vty) (prop_name : string) (ps : list (PropertyBase IModule))
  : option (Property IModule (denote t)) :=
  match ps with
  | [] => None
  | p :: rest =>
      match last_match t prop_name rest with
      | Some q => Some q
      | None =>
          match as_property IModule t p with
          | Some q => if String.eqb (name IModule (denote t) q) prop_name then Some q else None
          | None => None
          end
      end
  end.

Lemma last_match_none (t : vty) (prop_name : string) (ps : list (PropertyBase IModule)) :
  last_match t prop_name ps = None <->
  Forall (fun p => forall q, as_property IModule t p = Some q ->
                     name IModule (denote t) q <> prop_name) ps.
Proof.
  induction ps as [|p ps IH]; simpl.
  - split; [constructor | reflexivity].
  - destruct (last_match t prop_name ps) as [q|] eqn:Hl.
    + split; [discriminate|]. intro H. inversion H as [|? ? _ Hr]; subst.
      apply IH in Hr. discriminate.
    + assert (Hr : Forall (fun p => forall q, as_property IModule t p = Some q ->
                     name IModule (denote t) q <> prop_name) ps) by (apply IH; reflexivity).
      destruct (as_property IModule t p) as [q|] eqn:Ha.
      * destruct (String.eqb_spec (name IModule (denote t) q) prop_name) as [E|E].
        -- split; [discriminate|]. intro H. apply Forall_inv in H.
           exact (False_ind _ (H q Ha E)).
        -- split; [intros _|reflexivity]. constructor; [|exact Hr].
           intros q' Hq'. rewrite Ha in Hq'. injection Hq' as <-. exact E.
      * split; [intros _|reflexivity]. constructor; [|exact Hr]. intros q' Hq'. rewrite Ha in Hq'. discriminate.
Qed.

Lemma fold_visitor (t : vty) (cmp : ComponentUID IModule) (prop_name : string)
  (ps : list (PropertyBase IModule)) (st : GPV t) :
  fold_left (fun s p => PropertyBase_visit IModule
                          (getPropertyValue_visitor IModule t cmp prop_name) p s) ps st =
  match last_match t prop_name ps with
  | Some q => mkGPV t (get IModule q cmp u32_minus_one) true
  | None => st
  end.
Proof.
  revert st. induction ps as [|p ps IH]; intro st; simpl; [reflexivity|].
  rewrite IH. unfold getPropertyValue_visitor. rewrite visit_override.
  destruct (last_match t prop_name ps); [reflexivity|].
  destruct (as_property IModule t p) as [q|]; [|reflexivity].
  destruct (String.eqb (name IModule (denote t) q) prop_name); reflexivity.
Qed.

End G.
End GPVFacts.

(** For a registered component, [getPropertyValue<T>] finds a [Property<T>]
    named [prop_name] among the component's properties exactly when one
    exists; it then yields the last such property's [get] at index -1, and
    otherwise the value-initialised [T]. *)
Lemma getPropertyValue_registered {IModule : Type} (value_init : forall t, Refl.denote t)
  (registry : list (Refl.RegisteredComponent IModule)) (t : Refl.vty)
  (module : IModule) (e : EntityRef) (cmp_type : Z) (prop_name : string)
  (cd : Refl.ComponentBase IModule) :
  Refl.getComponent IModule registry cmp_type = Some cd ->
  Refl.getPropertyValue IModule value_init registry t module e cmp_type prop_name =
  Refl.Ok (match GPVFacts.last_match t prop_name (Refl.props IModule cd) with
           | Some q => (Refl.get IModule q (Refl.mkUID IModule module cmp_type e)
                          Refl.u32_minus_one, true)
           | None => (value_init t, false)
           end).
Proof.
  intro Hc. unfold Refl.getPropertyValue. rewrite Hc.
  unfold Refl.ComponentBase_visit. rewrite GPVFacts.fold_visitor.
  destruct (GPVFacts.last_match t prop_name (Refl.props IModule cd)); reflexivity.
Qed.

(** C9 (code bug). [getPropertyValue<T>] calls [cmp_desc->visit] on the
    result of [getComponent] without checking it: for a component type with
    no registered component it goes through a null pointer instead of
    returning false with the default value. *)
Theorem getPropertyValue_unregistered_null {IModule : Type}
  (value_init : forall t, Refl.denote t)
  (registry : list (Refl.RegisteredComponent IModule)) (t : Refl.vty)
  (module : IModule) (e : EntityRef) (cmp_type : Z) (prop_name : string) :
  Refl.getComponent IModule registry cmp_type = None ->
  Refl.getPropertyValue IModule value_init registry t module e cmp_type prop_name =
  Refl.NullPointer "cmp_desc".
Proof. intro H. unfold Refl.getPropertyValue. rewrite H. reflexivity. Qed.

(** ** Read-only properties *)

(** C5 (corrected). The property built by [builder::prop] is read-only
    exactly when no setter was given; [set] does not check it: on a
    read-only property it calls the null setter. *)
Theorem prop_readonly_iff_no_setter {IModule T : Type} (name : string)
  (Getter : Refl.MGetter IModule T) (Setter : option (Refl.MSetter IModule T)) :
  (Refl.isReadonly IModule (Refl.prop_property IModule name Getter Setter) = true
     <-> Setter = None) /\
  (forall cmp idx v,
     Refl.set IModule (Refl.prop_property IModule name Getter Setter) cmp idx v =
     match Setter with
     | None => Refl.NullPointer "Property::setter"
     | Some s => Refl.Ok (Refl.call_setter IModule s (Refl.cu_module IModule cmp)
                            (Refl.cu_entity IModule cmp) idx v)
     end).
Proof.
  destruct Setter as [s|]; split; try (intros; reflexivity);
    unfold Refl.isReadonly, Refl.prop_property; simpl; split; intro; congruence.
Qed.

(** ** builder::function and builder::event *)
Module BuilderFacts.
Import Refl.

Lemma push_to_back_last {IModule : Type} (cs : list (ComponentBase IModule)) (f : Types.FunctionBase) :
  cs <> [] ->
  exists pre c, cs = pre ++ [c] /\ push_to_back IModule cs f = pre ++ [push_function IModule c f].
Proof.
  induction cs as [|c cs IH]; intro Hne; [contradiction|].
  destruct cs as [|c' cs].
  - exists [], c. split; reflexivity.
  - destruct (IH ltac:(discriminate)) as (pre & d & Heq & Hpush).
    exists (c :: pre), d. split.
    + rewrite Heq. reflexivity.
    + change (push_to_back IModule (c :: c' :: cs) f)
        with (c :: push_to_back IModule (c' :: cs) f).
      rewrite Hpush. reflexivity.
Qed.

End BuilderFacts.

(** C6 (corrected). [function<F>(name)] registers the function at module
    scope while the module has no component yet, and otherwise on the
    component added last; [event<F>(name)] always registers the event at
    module scope, leaving the components untouched. *)
Theorem builder_function_event_placement {IModule : Type} (b : Refl.builder IModule)
  (F : Types.FunctionBase) (fname : string) (Ev : Types.Event) (ename : string) :
  let f := Types.mkFunction fname (Types.fn_args F) (Types.fn_ret F) in
  let m := Refl.module IModule b in
  let mf := Refl.module IModule (Refl.builder_function IModule b F fname) in
  let me := Refl.module IModule (Refl.builder_event IModule b Ev ename) in
  (match Refl.cmps IModule m with
   | [] => Refl.m_functions IModule mf = Refl.m_functions IModule m ++ [f] /\
           Refl.cmps IModule mf = []
   | _ :: _ => Refl.m_functions IModule mf = Refl.m_functions IModule m /\
           exists pre c, Refl.cmps IModule m = pre ++ [c] /\
                         Refl.cmps IModule mf = pre ++ [Refl.push_function IModule c f]
   end) /\
  Refl.m_events IModule me = Refl.m_events IModule m ++ [Types.mkEvent ename (Types.ev_args Ev)] /\
  Refl.cmps IModule me = Refl.cmps IModule m /\
  Refl.m_functions IModule me = Refl.m_functions IModule m.
Proof.
  intros f m mf me. subst f m mf me.
  unfold Refl.builder_function, Refl.builder_event. simpl.
  split; [|split; [reflexivity | split; reflexivity]].
  destruct (Refl.cmps IModule (Refl.module IModule b)) as [|c cs] eqn:Hc; simpl.
  - split; reflexivity.
  - split; [reflexivity|].
    destruct (BuilderFacts.push_to_back_last (c :: cs)
                (Types.mkFunction fname (Types.fn_args F) (Types.fn_ret F))
                ltac:(discriminate)) as (pre & d & H1 & H2).
    exists pre, d. split; [exact H1 | exact H2].
Qed.

(** ** Enum-typed properties *)
Module EnumFacts.
Import Refl.

(** [v] is a value of the enum's underlying integer type. *)
Definition in_underlying (E : EnumType) (v : Z) : Prop :=
  if is_signed E then - 2 ^ (width E - 1) <= v < 2 ^ (width E - 1)
  else 0 <= v < 2 ^ width E.

Lemma pow_split (w : Z) : 1 <= w -> 2 ^ w = 2 * 2 ^ (w - 1) /\ 0 < 2 ^ (w - 1).
Proof.
  intro Hw. split.
  - replace w with (Z.succ (w - 1)) at 1 by lia. rewrite Z.pow_succ_r by lia. lia.
  - apply Z.pow_pos_nonneg; lia.
Qed.

Lemma wrap_small (w : Z) (s : bool) (x : Z) :
  1 <= w ->
  (if s then - 2 ^ (w - 1) <= x < 2 ^ (w - 1) else 0 <= x < 2 ^ w) ->
  wrap w s x = x.
Proof.
  intros Hw Hx. destruct (pow_split w Hw) as [Hp Hpos]. unfold wrap.
  destruct s; simpl.
  - destruct (Z.le_gt_cases 0 x) as [Hnn|Hneg].
    + rewrite Z.mod_small by lia.
      destruct (Z.leb_spec (2 ^ (w - 1)) x); lia.
    + assert (Hm : x mod 2 ^ w = x + 2 ^ w).
      { rewrite <- (Z_mod_plus_full x 1 (2 ^ w)). rewrite Z.mul_1_l.
        apply Z.mod_small. lia. }
      rewrite Hm. destruct (Z.leb_spec (2 ^ (w - 1)) (x + 2 ^ w)); lia.
  - apply Z.mod_small. exact Hx.
Qed.

Lemma wrap_i32_of_wide_unsigned (w v : Z) :
  32 <= w -> wrap 32 true (wrap w false v) = wrap 32 true v.
Proof.
  intro Hw. unfold wrap at 2. simpl andb. cbv iota.
  unfold wrap. rewrite Z.mod_mod_divide; [reflexivity|].
  exists (2 ^ (w - 32)). rewrite <- Z.pow_add_r by lia. f_equal. lia.
Qed.

Lemma cast_roundtrip (E : EnumType) (v : Z) :
  1 <= width E -> - 2 ^ 31 <= v < 2 ^ 31 ->
  (32 <= width E \/ in_underlying E v) ->
  cast_to_i32 (cast_to_enum E v) = v.
Proof.
  intros Hw Hv Hcase. unfold cast_to_i32, cast_to_enum.
  assert (Hi32 : wrap 32 true v = v) by (apply wrap_small; simpl; lia).
  destruct Hcase as [Hwide|Hin].
  - destruct (is_signed E) eqn:Hs.
    + assert (H31 : 2 ^ 31 <= 2 ^ (width E - 1)) by (apply Z.pow_le_mono_r; lia).
      rewrite (wrap_small (width E) true v) by (simpl; lia). exact Hi32.
    + rewrite wrap_i32_of_wide_unsigned by exact Hwide. exact Hi32.
  - unfold in_underlying in Hin.
    rewrite (wrap_small (width E) (is_signed E) v Hw Hin). exact Hi32.
Qed.

(** A [w]-bit conversion yields a value of the [w]-bit type. *)
Lemma wrap_range (w : Z) (s : bool) (x : Z) :
  1 <= w ->
  if s then - 2 ^ (w - 1) <= wrap w s x < 2 ^ (w - 1) else 0 <= wrap w s x < 2 ^ w.
Proof.
  intro Hw. destruct (pow_split w Hw) as [Hp Hpos].
  assert (Hm := Z.mod_pos_bound x (2 ^ w) ltac:(lia)). unfold wrap.
  destruct s; simpl; [|lia].
  destruct (Z.leb_spec (2 ^ (w - 1)) (x mod 2 ^ w)); lia.
Qed.

(** A [w]-bit conversion keeps the value modulo [2^w]. *)
Lemma wrap_congr (w : Z) (s : bool) (x : Z) :
  0 <= w -> (wrap w s x - x) mod 2 ^ w = 0.
Proof.
  intro Hw. assert (Hpos : 0 < 2 ^ w) by (apply Z.pow_pos_nonneg; lia).
  assert (Hd := Z.div_mod x (2 ^ w) ltac:(lia)). unfold wrap.
  destruct (s && (2 ^ (w - 1) <=? x mod 2 ^ w)).
  - replace (x mod 2 ^ w - 2 ^ w - x) with ((- (x / 2 ^ w) - 1) * 2 ^ w) by lia.
    apply Z.mod_mul. lia.
  - replace (x mod 2 ^ w - x) with ((- (x / 2 ^ w)) * 2 ^ w) by lia.
    apply Z.mod_mul. lia.
Qed.

(** For an underlying type narrower than [i32], converting the enum value
    back to [i32] does not change it. *)
Lemma cast_narrow (E : EnumType) (v : Z) :
  1 <= width E < 32 -> cast_to_i32 (cast_to_enum E v) = cast_to_enum E v.
Proof.
  intro Hw. unfold cast_to_i32, cast_to_enum.
  assert (Hr := wrap_range (width E) (is_signed E) v ltac:(lia)).
  assert (H31 : 2 ^ width E <= 2 ^ 31) by (apply Z.pow_le_mono_r; lia).
  destruct (pow_split (width E) ltac:(lia)) as [Hp _].
  apply wrap_small; [lia|]. simpl. destruct (is_signed E); lia.
Qed.

End EnumFacts.

(** C7 (corrected). For an enum-typed getter, [builder::prop] builds a
    [Property<i32>] whose getter casts the module getter's result to [i32]
    and whose setter passes [static_cast<T>(value)] to the module setter.
    With a module whose getter returns what its setter stored, a [set] of
    [v] followed by a [get] returns [static_cast<i32>(static_cast<T>(v))].
    This is [v] when [v] is an [i32] and the enum's underlying type has 32
    bits or more, or [v] is a value of that underlying type; for an
    underlying type of fewer than 32 bits it is [v] reduced modulo
    [2^width] into the underlying type's range. *)
Theorem enum_prop_cast_roundtrip {IModule : Type} (E : Refl.EnumType) (name : string)
  (g : Refl.MGetter IModule Z) (s : Refl.MSetter IModule Z)
  (cmp : Refl.ComponentUID IModule) (idx : u32) (v : i32) :
  (forall m e i x, Refl.call_getter IModule g (Refl.call_setter IModule s m e i x) e i = x) ->
  let p := Refl.prop_property_enum IModule E name g (Some s) in
  (forall m e i, Refl.getter IModule i32 p m e i =
                 Refl.cast_to_i32 (Refl.call_getter IModule g m e i)) /\
  (match Refl.setter IModule i32 p with
   | Some st => forall m e i x,
       st m e i x = Refl.call_setter IModule s m e i (Refl.cast_to_enum E x)
   | None => False
   end) /\
  (exists m', Refl.set IModule p cmp idx v = Refl.Ok m' /\
     Refl.get IModule p (Refl.mkUID IModule m' (Refl.cu_type IModule cmp)
                           (Refl.cu_entity IModule cmp)) idx
     = Refl.cast_to_i32 (Refl.cast_to_enum E v) /\
     (1 <= Refl.width E -> - 2 ^ 31 <= v < 2 ^ 31 ->
      (32 <= Refl.width E \/ EnumFacts.in_underlying E v) ->
      Refl.cast_to_i32 (Refl.cast_to_enum E v) = v) /\
     (1 <= Refl.width E < 32 ->
      Refl.cast_to_i32 (Refl.cast_to_enum E v) = Refl.wrap (Refl.width E) (Refl.is_signed E) v /\
      EnumFacts.in_underlying E (Refl.cast_to_i32 (Refl.cast_to_enum E v)) /\
      (Refl.cast_to_i32 (Refl.cast_to_enum E v) - v) mod 2 ^ Refl.width E = 0)).
Proof.
  intros Hmod p. subst p.
  split; [intros; reflexivity|]. split; [simpl; intros; reflexivity|].
  eexists. split; [reflexivity|]. split; [|split].
  - exact (f_equal Refl.cast_to_i32 (Hmod _ _ _ _)).
  - intros Hw Hv Hcase. apply EnumFacts.cast_roundtrip; assumption.
  - intro Hw. rewrite EnumFacts.cast_narrow by exact Hw. unfold Refl.cast_to_enum.
    split; [reflexivity|]. split.
    + unfold EnumFacts.in_underlying. apply EnumFacts.wrap_range. lia.
    + apply EnumFacts.wrap_congr. lia.
Qed.

(** ** Witnesses and counterexamples at concrete inputs *)

(** C3 (witness): the light component has three top-level properties, one
    of them an array with two children: five calls. *)
Lemma forEachProperty_calls_witness :
  Refl.getComponent unit Examples.registry 10 = Some Examples.light_cmp /\
  Forall VisitFacts.flat_arrays (Refl.props unit Examples.light_cmp) /\
  List.length (Refl.forEachProperty unit Examples.registry 10) = 5%nat.
Proof.
  assert (Hc : Refl.getComponent unit Examples.registry 10 = Some Examples.light_cmp)
    by reflexivity.
  assert (Hf : Forall VisitFacts.flat_arrays (Refl.props unit Examples.light_cmp))
    by (simpl; repeat constructor).
  split; [exact Hc|]. split; [exact Hf|].
  destruct (forEachProperty_calls Examples.registry 10 Examples.light_cmp Hc Hf) as [_ Hlen].
  rewrite Hlen. reflexivity.
Defined.

(** C8 (witness): component type 99 is not registered. *)
Lemma forEachProperty_lookup_miss_witness :
  Refl.getComponent unit Examples.registry 99 = None /\
  Refl.forEachProperty unit Examples.registry 99 = [].
Proof.
  split; [reflexivity|]. apply forEachProperty_lookup_miss. reflexivity.
Defined.

(** C9 (witness): [getPropertyValue<float>] for the unregistered type 99. *)
Lemma getPropertyValue_unregistered_null_witness :
  Refl.getComponent unit Examples.registry 99 = None /\
  Refl.getPropertyValue unit Examples.zero_init Examples.registry Refl.V_float tt 0 99 "radius"
  = Refl.NullPointer "cmp_desc".
Proof.
  split; [reflexivity|]. apply getPropertyValue_unregistered_null. reflexivity.
Defined.

(** C5 (counterexample). [set] on a property registered without a setter
    does not return: it calls the null setter. *)
Lemma readonly_set_calls_null_setter :
  Refl.isReadonly Z (Refl.prop_property Z "radius" (@Refl.G1 Z Z (fun m _ => m)) None) = true /\
  (forall m, Refl.set Z (Refl.prop_property Z "radius" (@Refl.G1 Z Z (fun m _ => m)) None)
               (Refl.mkUID Z 7 10 1) 0 5 <> Refl.Ok m).
Proof. split; [reflexivity | intros m; discriminate]. Qed.

(** C6 (counterexample). With the component "light" open, [event] still
    registers the event at module scope. *)
Lemma event_ignores_open_component :
  let b1 := Refl.builder_cmp Z (fun _ => 10) Examples.empty_builder
              (fun m _ => m) (fun m _ => m) "light" "Light" in
  let b2 := Refl.builder_event Z b1 (Types.mkEvent "" [Types.T_EntityRef]) "lightChanged" in
  Refl.cmps Z (Refl.module Z b1) <> [] /\
  Refl.cmps Z (Refl.module Z b2) = Refl.cmps Z (Refl.module Z b1) /\
  Refl.m_events Z (Refl.module Z b2) = [Types.mkEvent "lightChanged" [Types.T_EntityRef]].
Proof. simpl. split; [discriminate | split; reflexivity]. Qed.

(** C7 (witness): with a module that stores the value, a 32-bit signed
    enum round-trips -5, and a [u8]-based enum reads 300 back as 44. *)
Lemma enum_prop_cast_roundtrip_witness :
  (forall m e i x, Refl.call_getter Z Examples.store_getter
                     (Refl.call_setter Z Examples.store_setter m e i x) e i = x) /\
  Refl.get Z (Refl.prop_property_enum Z (Refl.mkEnumType 32 true) "type"
                Examples.store_getter (Some Examples.store_setter))
    (Refl.mkUID Z (-5) 10 1) 0 = -5 /\
  Refl.cast_to_i32 (Refl.cast_to_enum (Refl.mkEnumType 8 false) 300) = 44.
Proof.
  assert (Hmod : forall m e i x, Refl.call_getter Z Examples.store_getter
                   (Refl.call_setter Z Examples.store_setter m e i x) e i = x)
    by (intros; reflexivity).
  split; [exact Hmod|]. split.
  - destruct (enum_prop_cast_roundtrip (Refl.mkEnumType 32 true) "type"
                Examples.store_getter Examples.store_setter (Refl.mkUID Z 0 10 1) 0 (-5)
                Hmod) as (_ & _ & m' & Hset & Hget & Hrt & _).
    simpl in Hset. injection Hset as <-.
    transitivity (Refl.cast_to_i32 (Refl.cast_to_enum (Refl.mkEnumType 32 true) (-5)));
      [exact Hget|].
    apply Hrt; [simpl; lia | lia | left; simpl; lia].
  - destruct (enum_prop_cast_roundtrip (Refl.mkEnumType 8 false) "mode"
                Examples.store_getter Examples.store_setter (Refl.mkUID Z 0 10 1) 0 300
                Hmod) as (_ & _ & _ & _ & _ & _ & Hnarrow).
    destruct (Hnarrow ltac:(simpl; lia)) as (Hw & _). rewrite Hw. reflexivity.
Defined.

(** C7 (counterexample). For an enum whose underlying type is [u8], setting
    256 and reading back gives 0. *)
Lemma enum_prop_u8_truncates :
  let p := Refl.prop_property_enum Z (Refl.mkEnumType 8 false) "mode"
             Examples.store_getter (Some Examples.store_setter) in
  Refl.set Z p (Refl.mkUID Z 0 10 1) 0 256 = Refl.Ok 0 /\
  Refl.get Z p (Refl.mkUID Z 0 10 1) 0 = 0 /\ 0 <> 256.
Proof. simpl. split; [reflexivity | split; [reflexivity | discriminate]]. Qed.

(* ================================================================== *)
(** * Further properties of the reflection core *)

Module MoreFacts.

Lemma memcpy_full (dst src : list Z) (n : nat) :
  List.length src = n -> List.length dst = n -> Invoke.memcpy dst src n = src.
Proof.
  intros Hs Hd. unfold Invoke.memcpy. rewrite firstn_all2 by lia.
  rewrite skipn_all2 by lia. apply app_nil_r.
Qed.

Lemma getAttribute_loop_app (l : list Refl.IAttribute) (a : Refl.IAttribute) (k : Refl.AttrType) :
  Refl.getAttribute_loop (l ++ [a]) k =
  match Refl.getAttribute_loop l k with
  | Some b => Some b
  | None => if Refl.AttrType_eqb (Refl.getType a) k then Some a else None
  end.
Proof.
  induction l as [|b l IH]; simpl.
  - destruct (Refl.AttrType_eqb (Refl.getType a) k); reflexivity.
  - destruct (Refl.AttrType_eqb (Refl.getType b) k); [reflexivity | exact IH].
Qed.

Lemma push_to_back_app {IModule : Type} (cs : list (Refl.ComponentBase IModule))
  (c : Refl.ComponentBase IModule) (f : Types.FunctionBase) :
  Refl.push_to_back IModule (cs ++ [c]) f = cs ++ [Refl.push_function IModule c f].
Proof.
  induction cs as [|d cs IH]; [reflexivity|].
  simpl (_ ++ _). rewrite <- IH. destruct cs; reflexivity.
Qed.

End MoreFacts.

Module MoreGPV.
Import Refl.

Lemma last_match_app {IModule : Type} (t : vty) (prop_name : string)
  (l1 l2 : list (PropertyBase IModule)) :
  GPVFacts.last_match t prop_name (l1 ++ l2) =
  match GPVFacts.last_match t prop_name l2 with
  | Some q => Some q
  | None => GPVFacts.last_match t prop_name l1
  end.
Proof.
  induction l1 as [|p l1 IH]; simpl.
  - destruct (GPVFacts.last_match t prop_name l2); reflexivity.
  - rewrite IH. destruct (GPVFacts.last_match t prop_name l2); reflexivity.
Qed.

End MoreGPV.

(** Extra. For a registered component whose properties contain a
    [Property<T>] [q] named [prop_name] with no later top-level
    [Property<T>] of that name, [getPropertyValue<T>] returns true and
    [q]'s value at index -1: of several matching properties the last
    visited one wins. *)
Theorem getPropertyValue_last_match_wins {IModule : Type} (value_init : forall t, Refl.denote t)
  (registry : list (Refl.RegisteredComponent IModule)) (t : Refl.vty)
  (module : IModule) (e : EntityRef) (cmp_type : Z) (prop_name : string)
  (cd : Refl.ComponentBase IModule) (pre post : list (Refl.PropertyBase IModule))
  (p : Refl.PropertyBase IModule) (q : Refl.Property IModule (Refl.denote t)) :
  Refl.getComponent IModule registry cmp_type = Some cd ->
  Refl.props IModule cd = pre ++ p :: post ->
  Refl.as_property IModule t p = Some q ->
  Refl.name IModule (Refl.denote t) q = prop_name ->
  Forall (fun p => forall q, Refl.as_property IModule t p = Some q ->
                     Refl.name IModule (Refl.denote t) q <> prop_name) post ->
  Refl.getPropertyValue IModule value_init registry t module e cmp_type prop_name =
  Refl.Ok (Refl.get IModule q (Refl.mkUID IModule module cmp_type e) Refl.u32_minus_one, true).
Proof.
  intros Hc Hprops Hp Hname Hpost.
  rewrite (getPropertyValue_registered value_init registry t module e cmp_type prop_name cd Hc).
  rewrite Hprops, MoreGPV.last_match_app. simpl.
  apply GPVFacts.last_match_none in Hpost. rewrite Hpost, Hp, Hname, String.eqb_refl.
  reflexivity.
Qed.

(** Extra. For a registered component with no top-level [Property<T>] named
    [prop_name] (properties of another type, and the children of array
    properties, do not count), [getPropertyValue<T>] returns false and
    writes the value-initialised [T]. *)
Theorem getPropertyValue_not_found {IModule : Type} (value_init : forall t, Refl.denote t)
  (registry : list (Refl.RegisteredComponent IModule)) (t : Refl.vty)
  (module : IModule) (e : EntityRef) (cmp_type : Z) (prop_name : string)
  (cd : Refl.ComponentBase IModule) :
  Refl.getComponent IModule registry cmp_type = Some cd ->
  Forall (fun p => forall q, Refl.as_property IModule t p = Some q ->
                     Refl.name IModule (Refl.denote t) q <> prop_name) (Refl.props IModule cd) ->
  Refl.getPropertyValue IModule value_init registry t module e cmp_type prop_name =
  Refl.Ok (value_init t, false).
Proof.
  intros Hc Hnone. rewrite (getPropertyValue_registered value_init registry t module e cmp_type
                              prop_name cd Hc).
  apply GPVFacts.last_match_none in Hnone. rewrite Hnone. reflexivity.
Qed.

(** Extra. For a property built by [builder::prop] from a getter whose
    return type is not an enum (the [Property<T>] branch, no casts) and with
    a setter, on a module whose getter returns what its setter stored, [set]
    of [v] at index [idx] followed by [get] at [idx] returns [v]. *)
Theorem prop_set_get_roundtrip {IModule T : Type} (name : string)
  (g : Refl.MGetter IModule T) (s : Refl.MSetter IModule T)
  (cmp : Refl.ComponentUID IModule) (idx : u32) (v : T) :
  (forall m e i x, Refl.call_getter IModule g (Refl.call_setter IModule s m e i x) e i = x) ->
  exists m', Refl.set IModule (Refl.prop_property IModule name g (Some s)) cmp idx v = Refl.Ok m' /\
    Refl.get IModule (Refl.prop_property IModule name g (Some s))
      (Refl.mkUID IModule m' (Refl.cu_type IModule cmp) (Refl.cu_entity IModule cmp)) idx = v.
Proof.
  intro Hmod. eexists. split; [reflexivity|]. apply Hmod.
Qed.

(** Extra. A property built by [builder::var_prop] always has a setter; its
    getter ignores the index; and, when writing through the sub-object
    reference and reading the member back return what was written, [set]
    of [v] followed by [get] at any index returns [v]. *)
Theorem var_prop_roundtrip {IModule Sub T : Type} (name : string)
  (view : IModule -> EntityRef -> Sub) (put : IModule -> EntityRef -> Sub -> IModule)
  (mget : Sub -> T) (mput : Sub -> T -> Sub)
  (cmp : Refl.ComponentUID IModule) (idx idx' : u32) (v : T) :
  (forall m e sub, view (put m e sub) e = sub) ->
  (forall sub x, mget (mput sub x) = x) ->
  let p := Builder2.var_prop_property IModule name view put mget mput in
  Refl.isReadonly IModule p = false /\
  (forall m e, Refl.getter IModule T p m e idx = Refl.getter IModule T p m e idx') /\
  exists m', Refl.set IModule p cmp idx v = Refl.Ok m' /\
    Refl.get IModule p (Refl.mkUID IModule m' (Refl.cu_type IModule cmp)
                          (Refl.cu_entity IModule cmp)) idx' = v.
Proof.
  intros Hview Hmem p. subst p. split; [reflexivity|]. split; [intros; reflexivity|].
  eexists. split; [reflexivity|]. unfold Refl.get. simpl. rewrite Hview. apply Hmem.
Qed.

(** Extra. After [builder::attribute] attaches [a] to a property, a lookup
    of kind [k] still returns the attribute found before if there was one
    (the first attached wins), and [a] only when it is the first of kind
    [k]. *)
Theorem attribute_then_getAttribute {IModule T : Type} (p : Refl.Property IModule T)
  (a : Refl.IAttribute) (k : Refl.AttrType) :
  Refl.getAttribute IModule (Builder2.attribute IModule p a) k =
  match Refl.getAttribute IModule p k with
  | Some b => Some b
  | None => if Refl.AttrType_eqb (Refl.getType a) k then Some a else None
  end.
Proof. unfold Refl.getAttribute, Builder2.attribute. simpl. apply MoreFacts.getAttribute_loop_app. Qed.

(** Extra. [StructVar::set] and [StructVar::get] with a span whose length
    is not the member's size return false and change neither the object
    nor the span. *)
Theorem structvar_size_mismatch {Obj : Type} (m : StructVars.Member Obj) (obj : Obj)
  (mem : list Z) :
  StructVars.sizeof m <> List.length mem ->
  StructVars.set m obj mem = (false, obj) /\ StructVars.get m obj mem = (false, mem).
Proof.
  intro H. unfold StructVars.set, StructVars.get.
  destruct (Nat.eqb_spec (StructVars.sizeof m) (List.length mem)); [contradiction|].
  split; reflexivity.
Qed.

(** Extra. With spans of the member's size, [StructVar::set] of [mem]
    followed by [StructVar::get] succeeds and fills the span with [mem]. *)
Theorem structvar_set_get_roundtrip {Obj : Type} (m : StructVars.Member Obj) (obj : Obj)
  (mem buf : list Z) :
  (forall o, List.length (StructVars.load m o) = StructVars.sizeof m) ->
  (forall o b, List.length b = StructVars.sizeof m -> StructVars.load m (StructVars.store m o b) = b) ->
  List.length mem = StructVars.sizeof m ->
  List.length buf = StructVars.sizeof m ->
  exists obj', StructVars.set m obj mem = (true, obj') /\
               StructVars.get m obj' buf = (true, mem).
Proof.
  intros Hload Hstore Hmem Hbuf. unfold StructVars.set, StructVars.get.
  rewrite Hmem, Nat.eqb_refl. simpl.
  rewrite (MoreFacts.memcpy_full (StructVars.load m obj) mem _ Hmem (Hload obj)).
  eexists. split; [reflexivity|].
  rewrite Hbuf, Nat.eqb_refl. simpl. rewrite (Hstore obj mem Hmem).
  rewrite (MoreFacts.memcpy_full buf mem _ Hmem Hbuf). reflexivity.
Qed.

(** Extra. For [T] one of the parameter types of [Variant::operator =],
    [Event::toVariant] boxes a value with the tag that [getVariantType<T>]
    gives, also when the type is written [const T&]. *)
Theorem toVariant_tag (copy_c_str : ptr) (x : VariantM.AssignArg) :
  VariantM.type (Boxing.toVariant copy_c_str x) = Types.getVariantType (Boxing.cty_of_arg x) /\
  VariantM.type (Boxing.toVariant copy_c_str x) =
    Types.getVariantType (Types.T_ref (Types.T_const (Boxing.cty_of_arg x))).
Proof. destruct x; split; reflexivity. Qed.


(** Extra. [Event::bind] succeeds, and appends one raw binding, whenever the
    function's argument types equal the event's once const and reference
    are dropped (e.g. [const Vec3&] against [Vec3]). *)
Theorem bind_accepts_same_types_up_to_cvr (e : Types.Event) (dl : list Types.RawBinding)
  (fn_object : ptr) (fn : Types.FunctionBase) :
  Forall2 (fun a b => Types.RemoveCVR a = Types.RemoveCVR b) (Types.fn_args fn) (Types.ev_args e) ->
  Types.bind e dl fn_object fn = (true, dl ++ [Types.mkRaw fn_object fn]).
Proof.
  intro H.
  apply (BindFacts.Forall2_nth_iff _ _ _ Types.T_void Types.T_void) in H as [Hlen Hall].
  unfold Types.bind, Types.bindRaw, Types.getArgCount. rewrite Hlen, Nat.eqb_refl. simpl.
  assert (Hl : Types.bind_loop e fn 0 (List.length (Types.ev_args e)) = true).
  { apply (proj2 (BindFacts.bind_loop_spec _ _ _ _)). intros j Hj.
    unfold Types.getArgType.
    rewrite !BindFacts.ArgToTypeDescriptor_get_in by lia. simpl.
    unfold Types.getVariantType. rewrite (Hall j ltac:(lia)). reflexivity. }
  rewrite Hl. reflexivity.
Qed.

(** Extra. [Function::invoke] of a method returning [void] calls the method
    and never writes [ret_mem], whatever its size. *)
Theorem invoke_void_keeps_ret_mem {C R : Type} (f : Invoke.Function C R) (obj : C)
  (ret_mem : list Z) (args : list VariantM.Variant) :
  Invoke.ret f = Invoke.RetVoid ->
  Invoke.invoke f obj ret_mem args = (snd (Invoke.method f obj args), ret_mem).
Proof. intro H. unfold Invoke.invoke, Invoke.VariantCaller_call. rewrite H. reflexivity. Qed.

(** Extra. [cmp] followed by [function]: the function is registered on the
    component just opened (and only there); the module's free functions
    and the earlier components are unchanged. *)
Theorem cmp_then_function {IModule : Type} (getComponentType : string -> Z)
  (b : Refl.builder IModule) (Creator Destroyer : IModule -> EntityRef -> IModule)
  (cname label : string) (F : Types.FunctionBase) (fname : string) :
  let b' := Refl.builder_function IModule
              (Refl.builder_cmp IModule getComponentType b Creator Destroyer cname label) F fname in
  Refl.cmps IModule (Refl.module IModule b') =
    Refl.cmps IModule (Refl.module IModule b) ++
    [Refl.mkComponentBase IModule "" cname label Creator Destroyer (getComponentType cname) []
       [Types.mkFunction fname (Types.fn_args F) (Types.fn_ret F)]] /\
  Refl.m_functions IModule (Refl.module IModule b') = Refl.m_functions IModule (Refl.module IModule b).
Proof.
  intro b'. subst b'. unfold Refl.builder_function, Refl.builder_cmp, Refl.registerCmp.
  cbn [Refl.module Refl.cmps Refl.m_functions].
  destruct (Refl.cmps IModule (Refl.module IModule b)) as [|c cs]; cbn [app].
  - split; reflexivity.
  - cbn [Refl.module Refl.cmps Refl.m_functions].
    rewrite !app_comm_cons, MoreFacts.push_to_back_app. split; reflexivity.
Qed.

(** Extra. One past the last argument, [getArgType] returns the trailing
    sentinel of the [expand] array, whose type is VOID. *)
Theorem getArgType_at_count_is_void (fn : Types.FunctionBase) :
  Types.getArgType fn (Types.getArgCount fn) = Types.void_td.
Proof.
  unfold Types.getArgType, Types.getArgCount, Types.ArgToTypeDescriptor_get.
  rewrite app_nth2 by (rewrite List.length_map; lia).
  rewrite List.length_map, Nat.sub_diag. reflexivity.
Qed.

(** Witnesses of the properties above, at concrete inputs. *)

Lemma getPropertyValue_not_found_witness :
  Refl.getComponent unit Examples.registry 10 = Some Examples.light_cmp /\
  Refl.getPropertyValue unit Examples.zero_init Examples.registry Refl.V_Vec3 tt 0 10 "position"
  = Refl.Ok ((0, 0, 0), false).
Proof.
  split; [reflexivity|].
  apply (getPropertyValue_not_found Examples.zero_init Examples.registry Refl.V_Vec3 tt 0 10
           "position" Examples.light_cmp); [reflexivity|].
  repeat constructor; simpl; intros q Hq; discriminate.
Defined.

Lemma prop_set_get_roundtrip_witness :
  (forall m e i x, Refl.call_getter Z Examples.store_getter
                     (Refl.call_setter Z Examples.store_setter m e i x) e i = x) /\
  exists m', Refl.set Z (Refl.prop_property Z "value" Examples.store_getter (Some Examples.store_setter))
               (Refl.mkUID Z 0 10 1) 0 42 = Refl.Ok m' /\
    Refl.get Z (Refl.prop_property Z "value" Examples.store_getter (Some Examples.store_setter))
      (Refl.mkUID Z m' 10 1) 0 = 42.
Proof.
  assert (H : forall m e i x, Refl.call_getter Z Examples.store_getter
                (Refl.call_setter Z Examples.store_setter m e i x) e i = x)
    by (simpl; intros; reflexivity).
  split; [exact H|].
  apply (prop_set_get_roundtrip "value" Examples.store_getter Examples.store_setter
           (Refl.mkUID Z 0 10 1) 0 42 H).
Defined.

Lemma var_prop_roundtrip_witness :
  (forall (m : Z * Z) (e : EntityRef) (sub : Z * Z), (fun m _ => m) ((fun _ _ s => s) m e sub) e = sub) /\
  (forall (sub : Z * Z) (x : Z), fst ((fun s x => (x, snd s)) sub x) = x) /\
  let p := Builder2.var_prop_property (Z * Z) "range" (fun m _ => m) (fun _ _ s => s)
             fst (fun s x => (x, snd s)) in
  Refl.isReadonly (Z * Z) p = false /\
  (forall m e, Refl.getter (Z * Z) Z p m e 0 = Refl.getter (Z * Z) Z p m e 3) /\
  exists m', Refl.set (Z * Z) p (Refl.mkUID (Z * Z) (1, 2) 10 1) 0 7 = Refl.Ok m' /\
    Refl.get (Z * Z) p (Refl.mkUID (Z * Z) m' 10 1) 3 = 7.
Proof.
  assert (H1 : forall (m : Z * Z) (e : EntityRef) (sub : Z * Z),
            (fun m _ => m) ((fun _ _ s => s) m e sub) e = sub) by reflexivity.
  assert (H2 : forall (sub : Z * Z) (x : Z), fst ((fun s x => (x, snd s)) sub x) = x)
    by reflexivity.
  split; [exact H1|]. split; [exact H2|].
  exact (var_prop_roundtrip "range" (fun m _ => m) (fun _ _ s => s) fst (fun s x => (x, snd s))
           (Refl.mkUID (Z * Z) (1, 2) 10 1) 0 3 7 H1 H2).
Defined.

(** A struct with a 4-byte member (its bytes) and one other field. *)
Definition bytes4_member : StructVars.Member ((Z * Z * Z * Z) * Z) :=
  StructVars.mkMember (Obj := (Z * Z * Z * Z) * Z) 4%nat
    (fun o => let '((a, b, c, d), _) := o in [a; b; c; d])
    (fun o bs => match bs with [a; b; c; d] => ((a, b, c, d), snd o) | _ => o end).

Lemma structvar_size_mismatch_witness :
  StructVars.sizeof bytes4_member <> List.length [1; 2] /\
  StructVars.set bytes4_member ((0, 0, 0, 0), 9) [1; 2] = (false, ((0, 0, 0, 0), 9)) /\
  StructVars.get bytes4_member ((0, 0, 0, 0), 9) [1; 2] = (false, [1; 2]).
Proof.
  assert (H : StructVars.sizeof bytes4_member <> List.length [1; 2]) by (simpl; lia).
  split; [exact H|]. exact (structvar_size_mismatch bytes4_member ((0, 0, 0, 0), 9) [1; 2] H).
Defined.

Lemma structvar_set_get_roundtrip_witness :
  exists obj', StructVars.set bytes4_member ((0, 0, 0, 0), 9) [1; 2; 3; 4] = (true, obj') /\
               StructVars.get bytes4_member obj' [0; 0; 0; 0] = (true, [1; 2; 3; 4]).
Proof.
  apply structvar_set_get_roundtrip.
  - intros [[[[a b] c] d] x]. reflexivity.
  - intros o [|a [|b [|c [|d [|y bs]]]]] H; simpl in H; try discriminate.
    destruct o as [[[[? ?] ?] ?] ?]. reflexivity.
  - reflexivity.
  - reflexivity.
Defined.


Lemma bind_accepts_same_types_up_to_cvr_witness :
  Types.bind (Types.mkEvent "onMove" [Types.T_EntityRef; Types.T_Vec3]) [] 8
    (Types.mkFunction "moved" [Types.T_EntityRef; Types.T_ref (Types.T_const Types.T_Vec3)] Types.T_void)
  = (true, [Types.mkRaw 8 (Types.mkFunction "moved"
              [Types.T_EntityRef; Types.T_ref (Types.T_const Types.T_Vec3)] Types.T_void)]).
Proof. apply bind_accepts_same_types_up_to_cvr. repeat constructor. Defined.

Lemma invoke_void_keeps_ret_mem_witness :
  Invoke.invoke (Invoke.mkFunction (C := Z) (R := unit) (fun c _ => (tt, c + 1)) Invoke.RetVoid)
    5 [7; 7] [] = (6, [7; 7]).
Proof.
  rewrite (invoke_void_keeps_ret_mem
             (Invoke.mkFunction (C := Z) (R := unit) (fun c _ => (tt, c + 1)) Invoke.RetVoid)
             5 [7; 7] [] eq_refl).
  reflexivity.
Defined.

Definition radius_a : Refl.Property unit float :=
  Refl.mkProperty unit float "radius" [] None (fun _ _ _ => 1).
Definition radius_b : Refl.Property unit float :=
  Refl.mkProperty unit float "radius" [] None (fun _ _ _ => 5).
(** A component that registers two float properties named "radius". *)
Definition twice_radius_cmp : Refl.ComponentBase unit :=
  Refl.mkComponentBase unit "" "sphere" "Sphere" (fun m _ => m) (fun m _ => m) 11
    [Refl.P_float unit radius_a; Refl.P_array unit Examples.lights; Refl.P_float unit radius_b] [].

Lemma getPropertyValue_last_match_wins_witness :
  Refl.getPropertyValue unit Examples.zero_init [Refl.mkRegistered unit 3 4 twice_radius_cmp]
    Refl.V_float tt 0 11 "radius" = Refl.Ok (5, true).
Proof.
  apply (getPropertyValue_last_match_wins Examples.zero_init _ Refl.V_float tt 0 11 "radius"
           twice_radius_cmp [Refl.P_float unit radius_a; Refl.P_array unit Examples.lights] []
           (Refl.P_float unit radius_b) radius_b); reflexivity || constructor.
Defined.
